(** * mcp-inotes: the text-protocol bridge to the notes application

    A shallow embedding of [src/notes_service.py] (the [NotesService] class)
    and of the four caller-facing tools of [src/server.py], followed by the
    properties of the escaper, the script builder, the record decoder, the
    facade and the tools.

    Conventions.
    - A Python [str] is a [string]; a character is a code point below 256,
      so Python's notion of white space is taken on that range.
    - [subprocess.run(["osascript", "-e", script], capture_output=True,
      text=True, check=False)], once it has returned, is a function from the
      script text to a [CompletedProcess]: a status other than 0 does not
      make it raise.  Where a caller catches what the call itself raises
      (a NUL in an argument, an argument too long, a missing interpreter),
      the call is a function to a [result].
    - [raise Exception(msg)], and any exception with the text [msg], is the
      result [Raise msg]. *)

From Stdlib Require Import Ascii ZArith.
From stdpp Require Import gmap strings list pretty.

Local Open Scope char_scope.

(** ** Characters the code names *)

Definition dq : ascii := "034".   (* the double quote *)
Definition bs : ascii := "092".   (* the backslash *)
Definition nl : ascii := "010".   (* the newline, Python's '\n' *)

Local Close Scope char_scope.

(** [quoted s] is [s] between two double quotes, as it stands in a template. *)
Definition quoted (s : string) : string := String dq (s +:+ String dq "").

(** ** The methods of Python's [str] that the code calls *)

Module PyStr.

(** [s.startswith(p)]. *)
Definition startswith (p s : string) : bool := String.prefix p s.

(** [sub in s]. *)
Fixpoint contains (sub s : string) : bool :=
  startswith sub s ||
  match s with
  | EmptyString => false
  | String _ s' => contains sub s'
  end.

(** [s.replace(old, new)]: every occurrence of [old], found from left to
    right without overlap, becomes [new].  [skip] counts the characters of
    a found occurrence that remain to be dropped. *)
Fixpoint replace_from (old new : string) (skip : nat) (s : string) : string :=
  match s with
  | EmptyString => EmptyString
  | String c s' =>
      match skip with
      | S k => replace_from old new k s'
      | O =>
          if startswith old s
          then new +:+ replace_from old new (String.length old - 1) s'
          else String c (replace_from old new 0 s')
      end
  end.

(** With an empty [old], Python puts [new] before every character and at
    the end. *)
Fixpoint intersperse (new s : string) : string :=
  match s with
  | EmptyString => new
  | String c s' => new +:+ String c (intersperse new s')
  end.

Definition replace (old new s : string) : string :=
  match old with
  | EmptyString => intersperse new s
  | String _ _ => replace_from old new 0 s
  end.

(** [s.split(sep)] for a non-empty [sep]: the segments between the
    occurrences of [sep], found from left to right without overlap; the
    result always has a first segment.  [split_from] returns it apart from
    the others. *)
Fixpoint split_from (sep : string) (skip : nat) (s : string) : string * list string :=
  match s with
  | EmptyString => (EmptyString, [])
  | String c s' =>
      match skip with
      | S k => split_from sep k s'
      | O =>
          if startswith sep s
          then let '(h, t) := split_from sep (String.length sep - 1) s' in
               (EmptyString, h :: t)
          else let '(h, t) := split_from sep 0 s' in
               (String c h, t)
      end
  end.

(** Python raises [ValueError] for an empty separator; the code only ever
    passes the two delimiter literals, and the model returns [[s]] there. *)
Definition split (sep s : string) : list string :=
  match sep with
  | EmptyString => [s]
  | String _ _ => let '(h, t) := split_from sep 0 s in h :: t
  end.

(** [c.isspace()] on the code points below 256. *)
Definition isspace (c : ascii) : bool :=
  let n := nat_of_ascii c in
  ((9 <=? n) && (n <=? 13)) || ((28 <=? n) && (n <=? 32))
  || (n =? 133) || (n =? 160).

Fixpoint lstrip (s : string) : string :=
  match s with
  | EmptyString => EmptyString
  | String c s' => if isspace c then lstrip s' else s
  end.

Fixpoint rstrip (s : string) : string :=
  match s with
  | EmptyString => EmptyString
  | String c s' =>
      match rstrip s' with
      | EmptyString => if isspace c then EmptyString else String c EmptyString
      | r => String c r
      end
  end.

(** [s.strip()]. *)
Definition strip (s : string) : string := rstrip (lstrip s).

(** [sep.join(l)]. *)
Fixpoint join (sep : string) (l : list string) : string :=
  match l with
  | [] => EmptyString
  | [x] => x
  | x :: l' => x +:+ sep +:+ join sep l'
  end.

End PyStr.

(** The text of a triple-quoted template, one entry for each source line. *)
Definition text (ls : list string) : string := PyStr.join (String nl "") ls.

(** ** Results, the process bridge *)

(** The outcome of a method: a value, or [raise Exception(msg)]. *)
Inductive result (A : Type) : Type :=
| Ok (a : A)
| Raise (msg : string).
Arguments Ok {A} a.
Arguments Raise {A} msg.

(** What [subprocess.run] hands back. *)
Record CompletedProcess : Type := {
  returncode : Z;
  stdout : string;
  stderr : string
}.

(** The external interpreter: from the script text to the finished process. *)
Definition osascript : Type := string → CompletedProcess.

(** [subprocess.run] as a call that may itself raise, before or after the
    process ran: [Raise e] carries the text of that exception. *)
Definition subprocess : Type := string → result CompletedProcess.

(** A method of the service under such a call.  The service has no handler:
    when the call on the method's script raises, the exception leaves the
    method as it is; otherwise the method goes on with the finished
    process. *)
Definition calling {A : Type} (spawn : subprocess) (script : string)
    (method : osascript → result A) : result A :=
  match spawn script with
  | Raise e => Raise e
  | Ok result => method (λ _, result)
  end.

(** ** [class NotesService] *)

Module NotesService.

Definition FOLDER : string := "Claude Diary".

(** The two delimiter tokens of the wire format; the source writes them as
    literals where they are used. *)
Definition FIELD_SEP : string := "|~|".
Definition RECORD_SEP : string := "||".

(** [.replace("\\", "\\\\").replace('"', '\\"')] *)
Definition escape (s : string) : string :=
  PyStr.replace (String dq "") (String bs (String dq ""))
    (PyStr.replace (String bs "") (String bs (String bs "")) s).

(** [.replace("\\", "\\\\").replace('"', '\\"').replace('\n', '<br>')] *)
Definition escape_body (s : string) : string :=
  PyStr.replace (String nl "") "<br>" (escape s).

(** *** create_note *)

Definition create_note_script (title body : string) : string :=
  let title := escape title in
  let body := escape_body body in
  text [
    "";
    "        tell application " +:+ quoted "Notes";
    "            tell folder " +:+ quoted FOLDER;
    "                set newNote to make new note with properties {name:"
      +:+ quoted title +:+ ", body:" +:+ quoted body +:+ "}";
    "                return id of newNote";
    "            end tell";
    "        end tell";
    "        "
  ].

Definition create_note (run : osascript) (title body : string) : result string :=
  let script := create_note_script title body in
  let result := run script in
  if bool_decide (returncode result ≠ 0%Z)
  then Raise ("Failed to create note: " +:+ stderr result)
  else Ok (PyStr.strip (stdout result)).

(** *** get_note *)

Definition get_note_script (note_id : string) : string :=
  let note_id := escape note_id in
  text [
    "";
    "        tell application " +:+ quoted "Notes";
    "            set theNote to note id " +:+ quoted note_id;
    "            set noteData to {}";
    "            set end of noteData to id of theNote";
    "            set end of noteData to name of theNote";
    "            set end of noteData to body of theNote";
    "            set end of noteData to creation date of theNote as string";
    "            set end of noteData to modification date of theNote as string";
    "";
    "            set AppleScript's text item delimiters to " +:+ quoted FIELD_SEP;
    "            return noteData as text";
    "        end tell";
    "        "
  ].

Definition get_note (run : osascript) (note_id : string) : result (gmap string string) :=
  let script := get_note_script note_id in
  let result := run script in
  if bool_decide (returncode result ≠ 0%Z)
  then Raise ("Failed to get note: " +:+ stderr result)
  else
    let parts := PyStr.split FIELD_SEP (PyStr.strip (stdout result)) in
    if bool_decide (length parts < 5)
    then Raise "Invalid response from AppleScript"
    else Ok {[ "id" := parts !!! 0;
               "name" := parts !!! 1;
               "body" := parts !!! 2;
               "creation_date" := parts !!! 3;
               "modification_date" := parts !!! 4 ]}.

(** *** append_to_note *)

Definition append_to_note_script (note_id content : string) : string :=
  let note_id := escape note_id in
  let content := escape_body content in
  text [
    "";
    "        tell application " +:+ quoted "Notes";
    "            set theNote to note id " +:+ quoted note_id;
    "            set body of theNote to (body of theNote) & "
      +:+ quoted ("<br><br>" +:+ content);
    "        end tell";
    "        "
  ].

Definition append_to_note (run : osascript) (note_id content : string) : result unit :=
  let script := append_to_note_script note_id content in
  let result := run script in
  if bool_decide (returncode result ≠ 0%Z)
  then Raise ("Failed to append to note: " +:+ stderr result)
  else Ok ().

(** *** get_notes_list *)

Definition get_notes_list_script (start_date end_date : option string) : string :=
  text [
    "";
    "        tell application " +:+ quoted "Notes";
    "            set allNotes to notes of folder " +:+ quoted FOLDER;
    "            set notesList to {}";
    "            repeat with theNote in allNotes";
    "                set noteInfo to {}";
    "                set end of noteInfo to id of theNote";
    "                set end of noteInfo to name of theNote";
    "                set end of noteInfo to creation date of theNote as string";
    "                set end of noteInfo to modification date of theNote as string";
    "                set end of notesList to noteInfo";
    "            end repeat";
    "";
    "            set AppleScript's text item delimiters to " +:+ quoted FIELD_SEP;
    "            set output to {}";
    "            repeat with noteInfo in notesList";
    "                set end of output to noteInfo as text";
    "            end repeat";
    "            set AppleScript's text item delimiters to " +:+ quoted RECORD_SEP;
    "            return output as text";
    "        end tell";
    "        "
  ].

(** One turn of the loop [for note_str in output.split("||")]: [notes] is
    the list built so far. *)
Definition decode_step (notes : list (gmap string string)) (note_str : string)
  : list (gmap string string) :=
  if bool_decide (note_str = "") then notes            (* continue *)
  else
    let parts := PyStr.split FIELD_SEP note_str in
    if bool_decide (4 ≤ length parts)              (* len(parts) >= 4 *)
    then notes ++ [ {[ "id" := parts !!! 0;
                       "name" := parts !!! 1;
                       "creation_date" := parts !!! 2;
                       "modification_date" := parts !!! 3 ]} ]
    else notes.

Definition get_notes_list (run : osascript) (start_date end_date : option string)
  : result (list (gmap string string)) :=
  let script := get_notes_list_script start_date end_date in
  let result := run script in
  if bool_decide (returncode result ≠ 0%Z)
  then Raise ("Failed to get notes: " +:+ stderr result)
  else
    let output := PyStr.strip (stdout result) in
    if bool_decide (output = "") then Ok []
    else Ok (foldl decode_step [] (PyStr.split RECORD_SEP output)).

End NotesService.

(** ** The caller-facing tool of [server.py] *)

Module Server.

(** The four lines and the blank line that one turn of
    [for i, note in enumerate(notes, 1)] appends to [output]. *)
Definition entry (i : nat) (note : gmap string string) : list string :=
  let name := default "Untitled" (note !! "name") in
  let note_id := default "" (note !! "id") in
  let creation_date := default "" (note !! "creation_date") in
  let modification_date := default "" (note !! "modification_date") in
  [ pretty i +:+ ". " +:+ quoted name;
    "   ID: " +:+ note_id;
    "   Created: " +:+ creation_date;
    "   Modified: " +:+ modification_date;
    "" ].

(** [enumerate(notes, 1)]. *)
Definition enumerate1 {A} (l : list A) : list (nat * A) :=
  zip (seq 1 (length l)) l.

(** The formatting of the (already truncated) list. *)
Definition format_notes (notes : list (gmap string string)) : string :=
  let output :=
    [ "Found " +:+ pretty (length notes) +:+ " note(s) in Claude Diary:"
        +:+ String nl "" ] in
  let output :=
    foldl (λ output '(i, note), output ++ entry i note) output (enumerate1 notes) in
  PyStr.join (String nl "") output.

Definition get_notes_list (run : osascript) (start_date end_date : option string)
  : string :=
  match NotesService.get_notes_list run start_date end_date with
  | Raise e => "Error getting notes: " +:+ e
  | Ok notes =>
      if bool_decide (notes = []) then "No notes found in Claude Diary folder"
      else
        let notes := take 50 notes in                  (* notes[:50] *)
        format_notes notes
  end.

(** [d[k]]: the value under the key, or [KeyError(k)], whose text is the
    key between single quotes. *)
Definition getitem (d : gmap string string) (k : string) : result string :=
  match d !! k with
  | Some v => Ok v
  | None => Raise ("'" +:+ k +:+ "'")
  end.

(** The tool [create_note]: every exception, of the service or of the call
    to the interpreter, is caught and turned into text (the call to
    [logger.error] leaves no trace in the result). *)
Definition create_note (spawn : subprocess) (title body : string) : string :=
  match calling spawn (NotesService.create_note_script title body)
          (λ run, NotesService.create_note run title body) with
  | Ok note_id =>
      text [ "Created note: " +:+ quoted title;
             "ID: " +:+ note_id;
             "Folder: Claude Diary (hardcoded)" ]
  | Raise e => "Error creating note: " +:+ e
  end.

(** The tool [append_to_note]. *)
Definition append_to_note (spawn : subprocess) (note_id content : string) : string :=
  match calling spawn (NotesService.append_to_note_script note_id content)
          (λ run, NotesService.append_to_note run note_id content) with
  | Ok _ => "Successfully appended content to note" +:+ String nl "ID: " +:+ note_id
  | Raise e => "Error appending to note: " +:+ e
  end.

(** The list [output] of the tool [get_note]: the subscripts are evaluated
    in the order of the source, and the first missing key raises. *)
Definition get_note_lines (note : gmap string string) : result (list string) :=
  match getitem note "name" with Raise e => Raise e | Ok name =>
  match getitem note "id" with Raise e => Raise e | Ok id =>
  match getitem note "creation_date" with Raise e => Raise e | Ok creation_date =>
  match getitem note "modification_date" with Raise e => Raise e | Ok modification_date =>
  match getitem note "body" with Raise e => Raise e | Ok body =>
    Ok [ "Note: " +:+ quoted name;
         "ID: " +:+ id;
         "Created: " +:+ creation_date;
         "Modified: " +:+ modification_date;
         "";
         "Content:";
         "---";
         body ]
  end end end end end.

(** The tool [get_note]. *)
Definition get_note (spawn : subprocess) (note_id : string) : string :=
  match calling spawn (NotesService.get_note_script note_id)
          (λ run, NotesService.get_note run note_id) with
  | Raise e => "Error getting note: " +:+ e
  | Ok note =>
      match get_note_lines note with
      | Ok output => PyStr.join (String nl "") output
      | Raise e => "Error getting note: " +:+ e
      end
  end.

End Server.

(** ** How the interpreter reads what the templates produce

    The service only builds text; what that text does is decided by the
    script interpreter.  This module fixes the reading of the two
    constructs the properties below depend on: a double-quoted string
    literal, and the statements of the append script. *)

Module AppleScript.

(** [read_literal s] reads a string literal whose opening quote has just
    been passed: it returns the value of the literal and the text after
    its closing quote.  A backslash followed by a backslash or by a quote
    denotes that character; any other use of a backslash, and a literal
    that is never closed, is rejected. *)
Fixpoint read_literal (s : string) : option (string * string) :=
  match s with
  | EmptyString => None
  | String c s' =>
      if Ascii.eqb c dq then Some (EmptyString, s')
      else if Ascii.eqb c bs then
        match s' with
        | String d s'' =>
            if Ascii.eqb d bs || Ascii.eqb d dq
            then '(v, r) ← read_literal s''; Some (String d v, r)
            else None
        | EmptyString => None
        end
      else '(v, r) ← read_literal s'; Some (String c v, r)
  end.

(** The value of [s] when it stands between two quotes: [None] when [s]
    closes the literal early or leaves it open. *)
Definition literal_value (s : string) : option string :=
  match read_literal (s +:+ String dq "") with
  | Some (v, EmptyString) => Some v
  | _ => None
  end.

(** [expect p s] passes the fixed text [p] at the head of [s]. *)
Fixpoint expect (p s : string) : option string :=
  match p, s with
  | EmptyString, _ => Some s
  | String a p', String b s' => if Ascii.eqb a b then expect p' s' else None
  | String _ _, EmptyString => None
  end.

(** The append script is
<<
      tell application "Notes"
          set theNote to note id <literal>
          set body of theNote to (body of theNote) & <literal>
      end tell
>>
    with the indentation of the template.  These are its three fixed
    parts: up to the quote that opens the first literal, between the two
    literals, and after the second one. *)
Definition append_open : string :=
  text [ "";
         "        tell application " +:+ quoted "Notes";
         "            set theNote to note id " +:+ String dq "" ].

Definition append_set : string :=
  text [ "";
         "            set body of theNote to (body of theNote) & "
           +:+ String dq "" ].

Definition append_close : string :=
  text [ ""; "        end tell"; "        " ].

(** [parse_append] recognises exactly this text and returns the values of
    the two literals: the note addressed and the text concatenated to its
    body. *)
Definition parse_append (script : string) : option (string * string) :=
  r ← expect append_open script;
  '(note_id, r) ← read_literal r;
  r ← expect append_set r;
  '(appended, r) ← read_literal r;
  r ← expect append_close r;
  if bool_decide (r = "") then Some (note_id, appended) else None.

(** The create script, in its three fixed parts around the two literals. *)
Definition create_open : string :=
  text [ "";
         "        tell application " +:+ quoted "Notes";
         "            tell folder " +:+ quoted "Claude Diary";
         "                set newNote to make new note with properties {name:"
           +:+ String dq "" ].

Definition create_mid : string := ", body:" +:+ String dq "".

Definition create_close : string :=
  text [ "}";
         "                return id of newNote";
         "            end tell";
         "        end tell";
         "        " ].

(** [parse_create] recognises the create script and returns the values of
    the name literal and of the body literal. *)
Definition parse_create (script : string) : option (string * string) :=
  r ← expect create_open script;
  '(name, r) ← read_literal r;
  r ← expect create_mid r;
  '(body, r) ← read_literal r;
  r ← expect create_close r;
  if bool_decide (r = "") then Some (name, body) else None.

(** The fetch-one script, before and after its one literal. *)
Definition fetch_open : string :=
  text [ "";
         "        tell application " +:+ quoted "Notes";
         "            set theNote to note id " +:+ String dq "" ].

Definition fetch_close : string :=
  text [ "";
         "            set noteData to {}";
         "            set end of noteData to id of theNote";
         "            set end of noteData to name of theNote";
         "            set end of noteData to body of theNote";
         "            set end of noteData to creation date of theNote as string";
         "            set end of noteData to modification date of theNote as string";
         "";
         "            set AppleScript's text item delimiters to " +:+ quoted "|~|";
         "            return noteData as text";
         "        end tell";
         "        " ].

(** [parse_fetch] recognises the fetch-one script and returns the note id
    it addresses. *)
Definition parse_fetch (script : string) : option string :=
  r ← expect fetch_open script;
  '(note_id, r) ← read_literal r;
  r ← expect fetch_close r;
  if bool_decide (r = "") then Some note_id else None.

(** What the scripts print.  In the fetch-one script [noteData as text],
    under the text item delimiter "|~|", is the five collected values joined
    by it; in the list-all script each [noteInfo as text] is the four values
    of a note joined by "|~|", and [output as text] joins these by "||".
    [osascript] ends what it prints with a newline. *)
Definition fetch_output (id name body created modified : string) : string :=
  PyStr.join "|~|" [id; name; body; created; modified] +:+ String nl "".

Definition list_record (note : string * string * string * string) : string :=
  let '(id, name, created, modified) := note in
  PyStr.join "|~|" [id; name; created; modified].

Definition list_output (notes : list (string * string * string * string)) : string :=
  PyStr.join "||" (list_record <$> notes) +:+ String nl "".

End AppleScript.

(** ** The service and the state of the notes application

    [subprocess.run] also acts on the notes application.  With the bodies
    the application holds, one for each note id, made explicit, the call
    takes the script and these bodies and returns the finished process and
    the bodies the application is left with. *)
Definition application : Type :=
  string → gmap string string → CompletedProcess * gmap string string.

Module Stateful.

(** [NotesService.append_to_note] with the state of the application passed
    along. *)
Definition append_to_note (app : application) (note_id content : string)
    (notes : gmap string string) : result unit * gmap string string :=
  let script := NotesService.append_to_note_script note_id content in
  let '(result, notes') := app script notes in
  (if bool_decide (returncode result ≠ 0%Z)
   then Raise ("Failed to append to note: " +:+ stderr result)
   else Ok (),
   notes').

End Stateful.



(** ** Definitions used to state the properties *)

(** [smap f s] replaces every character [c] of [s] by the text [f c]. *)
Fixpoint smap (f : ascii → string) (s : string) : string :=
  match s with
  | EmptyString => EmptyString
  | String c s' => f c +:+ smap f s'
  end.

(** What the two escaping steps do to one character, and what the
    newline step does to one character. *)
Definition escape_char (c : ascii) : string :=
  if Ascii.eqb c bs then String bs (String bs "")
  else if Ascii.eqb c dq then String bs (String dq "")
  else String c "".

Definition break_char (c : ascii) : string :=
  if Ascii.eqb c nl then "<br>" else String c "".

(** [all_space s]: [s] is empty or consists of white space only. *)
Fixpoint all_space (s : string) : bool :=
  match s with
  | EmptyString => true
  | String c s' => PyStr.isspace c && all_space s'
  end.

(** The list decoder as the specification words it: split on the record
    delimiter, keep the segments that are not empty and have at least four
    fields, and map each of them by position. *)
Module ListDecoder.

Definition fields (segment : string) : list string :=
  PyStr.split NotesService.FIELD_SEP segment.

Definition kept (segment : string) : bool :=
  bool_decide (segment ≠ "") && bool_decide (4 ≤ length (fields segment)).

Definition summary (segment : string) : gmap string string :=
  {[ "id" := fields segment !!! 0;
     "name" := fields segment !!! 1;
     "creation_date" := fields segment !!! 2;
     "modification_date" := fields segment !!! 3 ]}.

Definition decode (output : string) : list (gmap string string) :=
  summary <$> filter (λ segment, kept segment = true)
                (PyStr.split NotesService.RECORD_SEP output).

End ListDecoder.

(** An interpreter that exits with status 0 and prints [out] for every
    script, and the output of a folder of [n] notes, for the examples. *)
Definition prints (out : string) : osascript :=
  λ _, {| returncode := 0; stdout := out; stderr := "" |}.

Definition sample_record (i : nat) : string :=
  PyStr.join NotesService.FIELD_SEP
    [ "x-coredata://n" +:+ pretty i; "Day " +:+ pretty i; "Monday"; "Tuesday" ].

Definition sample_output (n : nat) : string :=
  PyStr.join NotesService.RECORD_SEP (sample_record <$> seq 1 n) +:+ String nl "".

Definition sample_note (i : nat) : gmap string string :=
  {[ "id" := "x-coredata://n" +:+ pretty i;
     "name" := "Day " +:+ pretty i;
     "creation_date" := "Monday";
     "modification_date" := "Tuesday" ]}.

(** [has_char c s]: the character [c] occurs in [s]. *)
Fixpoint has_char (c : ascii) (s : string) : bool :=
  match s with
  | EmptyString => false
  | String x s' => Ascii.eqb x c || has_char c s'
  end.

(** [count_special s]: the number of backslashes and quotes of [s]. *)
Fixpoint count_special (s : string) : nat :=
  match s with
  | EmptyString => 0
  | String c s' =>
      (if Ascii.eqb c bs || Ascii.eqb c dq then 1 else 0) + count_special s'
  end.

(** The vertical bar, of which both delimiters are made. *)
Definition bar : ascii := "124"%char.

(** A value that the wire format carries unharmed: not empty, already
    trimmed at both ends, and without a vertical bar. *)
Definition field_ok (f : string) : bool :=
  bool_decide (f ≠ "") && bool_decide (PyStr.lstrip f = f)
  && bool_decide (PyStr.rstrip f = f) && negb (has_char bar f).

(** The four values the decoder takes from a segment, by position. *)
Definition row_of (segment : string) : string * string * string * string :=
  (ListDecoder.fields segment !!! 0, ListDecoder.fields segment !!! 1,
   ListDecoder.fields segment !!! 2, ListDecoder.fields segment !!! 3).

(** The lines of the tool's answer for the note with these four values,
    shown as number [i]. *)
Definition entry_lines (i : nat) (row : string * string * string * string)
  : list string :=
  let '(id, name, created, modified) := row in
  [ pretty i +:+ ". " +:+ quoted name;
    "   ID: " +:+ id;
    "   Created: " +:+ created;
    "   Modified: " +:+ modified;
    "" ].

(** The record the service builds for a listed note. *)
Definition summary_of (note : string * string * string * string)
  : gmap string string :=
  let '(id, name, created, modified) := note in
  {[ "id" := id; "name" := name;
     "creation_date" := created; "modification_date" := modified ]}.

Definition note_ok (note : string * string * string * string) : bool :=
  let '(id, name, created, modified) := note in
  field_ok id && field_ok name && field_ok created && field_ok modified.

(** [sdrop n s]: [s] without its first [n] characters. *)
Fixpoint sdrop (n : nat) (s : string) : string :=
  match n, s with
  | O, _ => s
  | S n', String _ s' => sdrop n' s'
  | S _, EmptyString => EmptyString
  end.

(** [no_match sep a tail]: reading [a +:+ tail] from left to right, [sep]
    is found at none of the positions of [a]. *)
Fixpoint no_match (sep a tail : string) : bool :=
  match a with
  | EmptyString => true
  | String _ a' =>
      negb (PyStr.startswith sep (a +:+ tail)) && no_match sep a' tail
  end.

(** A text that starts with a character other than white space, and a text
    that ends with one. *)
Definition starts_trimmed (s : string) : Prop :=
  ∃ c r, s = String c r ∧ PyStr.isspace c = false.

Definition ends_trimmed (s : string) : Prop :=
  s ≠ "" ∧ PyStr.rstrip s = s.

(** * Properties *)

(** ** The string methods on small inputs *)

Example replace_ex : PyStr.replace "ab" "X" "aabab-abb" = "aXX-Xb".
Proof. reflexivity. Qed.
Example split_ex : PyStr.split "||" "a|||b||" = ["a"; "|b"; ""].
Proof. reflexivity. Qed.
Example strip_ex : PyStr.strip (String nl "  a b " +:+ String nl "") = "a b".
Proof. reflexivity. Qed.
(** ** Strings: concatenation *)

Lemma sapp_nil_l (s : string) : "" +:+ s = s.
Proof. reflexivity. Qed.

Lemma sapp_cons (c : ascii) (s t : string) : String c s +:+ t = String c (s +:+ t).
Proof. reflexivity. Qed.

Lemma sapp_nil_r (s : string) : s +:+ "" = s.
Proof. induction s as [|c s IH]; [done|]. by rewrite sapp_cons, IH. Qed.

Lemma sapp_assoc (s t u : string) : (s +:+ t) +:+ u = s +:+ (t +:+ u).
Proof. induction s as [|c s IH]; [done|]. by rewrite !sapp_cons, IH. Qed.

Lemma sapp_length (s t : string) :
  String.length (s +:+ t) = String.length s + String.length t.
Proof. induction s as [|c s IH]; [done|]. rewrite sapp_cons. simpl. by rewrite IH. Qed.

Create Rewrite HintDb str.
#[global] Hint Rewrite sapp_assoc sapp_cons sapp_nil_l sapp_nil_r : str.

(** Brings a concatenation to the form [c1 :: c2 :: ... (s +:+ (t +:+ ...))]. *)
Ltac str_norm :=
  cbv [text PyStr.join quoted]; autorewrite with str.

Lemma startswith_app (p s : string) : PyStr.startswith p (p +:+ s) = true.
Proof.
  unfold PyStr.startswith. induction p as [|c p IH].
  - by destruct s.
  - rewrite sapp_cons. simpl. by destruct (ascii_dec c c).
Qed.

Lemma startswith_spec (p s : string) :
  PyStr.startswith p s = true ↔ ∃ r, s = p +:+ r.
Proof.
  split.
  - unfold PyStr.startswith. revert s. induction p as [|c p IH]; intros s H.
    + by exists s.
    + destruct s as [|d s]; simpl in H; [done|].
      destruct (ascii_dec c d) as [->|]; [|done].
      destruct (IH _ H) as [r ->]. by exists r.
  - intros [r ->]. apply startswith_app.
Qed.

Lemma contains_unfold (sub s : string) :
  PyStr.contains sub s
  = PyStr.startswith sub s
    || match s with EmptyString => false | String _ s' => PyStr.contains sub s' end.
Proof. by destruct s. Qed.

Lemma contains_here (sub s : string) :
  PyStr.startswith sub s = true → PyStr.contains sub s = true.
Proof. intros H. by rewrite contains_unfold, H. Qed.

Lemma contains_later (sub : string) (c : ascii) (s : string) :
  PyStr.contains sub s = true → PyStr.contains sub (String c s) = true.
Proof. intros H. rewrite contains_unfold, H. apply orb_true_r. Qed.

(** [sub in s] holds as soon as [s] is some text, then [sub], then some text. *)
Lemma contains_app (sub p r : string) : PyStr.contains sub (p +:+ (sub +:+ r)) = true.
Proof.
  induction p as [|c p IH].
  - rewrite sapp_nil_l. apply contains_here, startswith_app.
  - rewrite sapp_cons. by apply contains_later.
Qed.

Lemma contains_spec (sub s : string) :
  PyStr.contains sub s = true ↔ ∃ p r, s = p +:+ (sub +:+ r).
Proof.
  split.
  - induction s as [|c s IH]; rewrite contains_unfold; intros H.
    + rewrite orb_false_r in H. apply startswith_spec in H as [r Hr]. by exists "", r.
    + apply orb_true_iff in H as [H|H].
      * apply startswith_spec in H as [r Hr]. by exists "", r.
      * destruct (IH H) as (p & r & ->). by exists (String c p), r.
  - intros (p & r & ->). apply contains_app.
Qed.

(** ** Strings: replacing one character *)

Lemma smap_app (f : ascii → string) (s t : string) :
  smap f (s +:+ t) = smap f s +:+ smap f t.
Proof.
  induction s as [|c s IH]; [done|].
  rewrite sapp_cons. simpl. by rewrite IH, sapp_assoc.
Qed.

Lemma smap_smap (f g : ascii → string) (s : string) :
  smap f (smap g s) = smap (λ c, smap f (g c)) s.
Proof. induction s as [|c s IH]; [done|]. simpl. by rewrite smap_app, IH. Qed.

Lemma smap_ext (f g : ascii → string) (s : string) :
  (∀ c, f c = g c) → smap f s = smap g s.
Proof. intros H. induction s as [|c s IH]; [done|]. simpl. by rewrite H, IH. Qed.

(** When [old] is a single character, [replace] works character by
    character. *)
Lemma replace_char (c : ascii) (new s : string) :
  PyStr.replace (String c "") new s
  = smap (λ x, if Ascii.eqb x c then new else String x "") s.
Proof.
  unfold PyStr.replace. induction s as [|x s IH]; [done|].
  simpl. destruct (Ascii.eqb_spec x c) as [->|Hne].
  - destruct (ascii_dec c c) as [_|]; [|done].
    assert (PyStr.startswith "" s = true) as -> by (by destruct s).
    by rewrite IH.
  - destruct (ascii_dec c x) as [->|_]; [done|].
    by rewrite IH.
Qed.

(** ** The escaper, character by character *)

Lemma escape_smap (s : string) : NotesService.escape s = smap escape_char s.
Proof.
  unfold NotesService.escape. rewrite !replace_char, smap_smap.
  apply smap_ext. intros c. unfold escape_char.
  destruct (Ascii.eqb_spec c bs) as [->|Hbs]; [done|].
  simpl. by destruct (Ascii.eqb c dq).
Qed.

Lemma escape_body_smap (s : string) :
  NotesService.escape_body s = smap (λ c, smap break_char (escape_char c)) s.
Proof.
  unfold NotesService.escape_body.
  by rewrite replace_char, escape_smap, smap_smap.
Qed.

Lemma break_smap (s : string) :
  PyStr.replace (String nl "") "<br>" s = smap break_char s.
Proof. apply replace_char. Qed.

(** ** Reading back what the escaper wrote *)

(** One escaped character is read back as that character. *)
Lemma read_literal_escape_char (c : ascii) (rest : string) :
  AppleScript.read_literal (escape_char c +:+ rest)
  = '(v, r) ← AppleScript.read_literal rest; Some (String c v, r).
Proof.
  unfold escape_char.
  destruct (Ascii.eqb_spec c bs) as [->|Hbs]; [done|].
  destruct (Ascii.eqb_spec c dq) as [->|Hdq]; [done|].
  apply Ascii.eqb_neq in Hbs, Hdq.
  rewrite sapp_cons, sapp_nil_l. cbn [AppleScript.read_literal].
  by rewrite Hbs, Hdq.
Qed.

(** One escaped character of a body is read back as that character, or as
    the break marker when it was a newline. *)
Lemma read_literal_escape_body_char (c : ascii) (rest : string) :
  AppleScript.read_literal (smap break_char (escape_char c) +:+ rest)
  = '(v, r) ← AppleScript.read_literal rest; Some (break_char c +:+ v, r).
Proof.
  unfold escape_char.
  destruct (Ascii.eqb_spec c bs) as [->|Hbs]; [done|].
  destruct (Ascii.eqb_spec c dq) as [->|Hdq]; [done|].
  cbn [smap]. unfold break_char.
  destruct (Ascii.eqb_spec c nl) as [->|Hnl].
  - rewrite sapp_nil_r, !sapp_cons, sapp_nil_l. cbn.
    by destruct (AppleScript.read_literal rest) as [[??]|].
  - apply Ascii.eqb_neq in Hbs, Hdq.
    rewrite sapp_nil_r, !sapp_cons, !sapp_nil_l. cbn [AppleScript.read_literal].
    by rewrite Hbs, Hdq.
Qed.

(** The escaped text, followed by the closing quote of the template, is read
    as one literal whose value is the text that was escaped: the reading
    stops at the template's quote and nowhere before. *)
Lemma read_literal_escape (s r : string) :
  AppleScript.read_literal (NotesService.escape s +:+ String dq r) = Some (s, r).
Proof.
  rewrite escape_smap. induction s as [|c s IH]; [done|].
  cbn [smap]. by rewrite sapp_assoc, read_literal_escape_char, IH.
Qed.

(** The same for a body: the value read is the text with its newlines
    turned into break markers. *)
Lemma read_literal_escape_body (s r : string) :
  AppleScript.read_literal (NotesService.escape_body s +:+ String dq r)
  = Some (PyStr.replace (String nl "") "<br>" s, r).
Proof.
  rewrite escape_body_smap, break_smap. induction s as [|c s IH]; [done|].
  cbn [smap]. by rewrite sapp_assoc, read_literal_escape_body_char, IH.
Qed.

Lemma expect_app (p s : string) : AppleScript.expect p (p +:+ s) = Some s.
Proof.
  induction p as [|c p IH]; [by destruct s|].
  rewrite sapp_cons. cbn [AppleScript.expect]. by rewrite Ascii.eqb_refl.
Qed.

Lemma literal_value_escape (s : string) :
  AppleScript.literal_value (NotesService.escape s) = Some s.
Proof. unfold AppleScript.literal_value. by rewrite read_literal_escape. Qed.

Lemma literal_value_escape_body (s : string) :
  AppleScript.literal_value (NotesService.escape_body s)
  = Some (PyStr.replace (String nl "") "<br>" s).
Proof. unfold AppleScript.literal_value. by rewrite read_literal_escape_body. Qed.

(** Why the backslashes go first: with the two steps exchanged, a lone
    quote would be written as two backslashes and a bare quote, which closes
    the literal early. *)
Example quotes_first_breaks_the_literal :
  AppleScript.literal_value
    (PyStr.replace (String bs "") (String bs (String bs ""))
       (PyStr.replace (String dq "") (String bs (String dq "")) (String dq "")))
  = None.
Proof. reflexivity. Qed.

(** C3. The escaper doubles the backslashes first and escapes the quotes
    second; what it writes, read as the contents of a double-quoted literal
    (a backslash before a backslash or a quote denotes that character),
    has the original text as its value, and for a body the value is the
    original text with each newline turned into the break marker. *)
Theorem escape_round_trip (s : string) :
  NotesService.escape s
  = PyStr.replace (String dq "") (String bs (String dq ""))
      (PyStr.replace (String bs "") (String bs (String bs "")) s)
  ∧ AppleScript.literal_value (NotesService.escape s) = Some s
  ∧ AppleScript.literal_value (NotesService.escape_body s)
    = Some (PyStr.replace (String nl "") "<br>" s).
Proof.
  split; [reflexivity|].
  split; [apply literal_value_escape | apply literal_value_escape_body].
Qed.

(** ** The append script *)

Lemma append_script_shape (note_id content : string) :
  NotesService.append_to_note_script note_id content
  = AppleScript.append_open +:+ (NotesService.escape note_id +:+ String dq
      (AppleScript.append_set +:+ ("<br><br>" +:+
         (NotesService.escape_body content +:+ String dq AppleScript.append_close)))).
Proof.
  unfold NotesService.append_to_note_script, AppleScript.append_open,
    AppleScript.append_set, AppleScript.append_close.
  str_norm. reflexivity.
Qed.

(** The two break markers the template puts before the content are read as
    they stand. *)
Lemma read_literal_breaks (rest : string) :
  AppleScript.read_literal ("<br><br>" +:+ rest)
  = '(v, r) ← AppleScript.read_literal rest; Some ("<br><br>" +:+ v, r).
Proof.
  rewrite !sapp_cons, sapp_nil_l. cbn.
  by destruct (AppleScript.read_literal rest) as [[??]|].
Qed.

(** Whatever the caller passes, the script is read as the two statements of
    the template: it addresses the note the caller named, and concatenates
    the break markers and the caller's content. *)
Lemma parse_append_script (note_id content : string) :
  AppleScript.parse_append (NotesService.append_to_note_script note_id content)
  = Some (note_id, "<br><br>" +:+ PyStr.replace (String nl "") "<br>" content).
Proof.
  rewrite append_script_shape. unfold AppleScript.parse_append.
  rewrite expect_app. cbn [mbind option_bind].
  rewrite read_literal_escape. cbn [mbind option_bind].
  rewrite expect_app. cbn [mbind option_bind].
  rewrite read_literal_breaks, read_literal_escape_body. cbn [mbind option_bind].
  rewrite <- (sapp_nil_r AppleScript.append_close) at 2.
  rewrite expect_app. cbn [mbind option_bind]. done.
Qed.

(** ** The scripts and the folder *)

Lemma create_script_names_folder (title body : string) :
  PyStr.contains ("tell folder " +:+ quoted NotesService.FOLDER)
    (NotesService.create_note_script title body) = true.
Proof.
  apply contains_spec.
  exists (text [""; "        tell application " +:+ quoted "Notes"; "            "]).
  eexists. unfold NotesService.create_note_script. str_norm. reflexivity.
Qed.

Lemma list_script_names_folder (start_date end_date : option string) :
  PyStr.contains ("notes of folder " +:+ quoted NotesService.FOLDER)
    (NotesService.get_notes_list_script start_date end_date) = true.
Proof. reflexivity. Qed.

(** C1. The create and the list-all scripts name the folder "Claude Diary"
    whatever the caller passes.  The fetch-one and the append scripts do
    not: on the note id x-coredata://n1 neither contains the folder name, so
    they address the note by its id alone, in whichever folder it is; and
    a caller who passes the folder name as the note id puts it into the
    fetch-one script as the id literal. *)
Theorem fetch_and_append_scripts_name_no_folder :
  (∀ title body,
     PyStr.contains ("tell folder " +:+ quoted NotesService.FOLDER)
       (NotesService.create_note_script title body) = true)
  ∧ (∀ start_date end_date,
       PyStr.contains ("notes of folder " +:+ quoted NotesService.FOLDER)
         (NotesService.get_notes_list_script start_date end_date) = true)
  ∧ PyStr.contains NotesService.FOLDER
      (NotesService.get_note_script "x-coredata://n1") = false
  ∧ PyStr.contains "folder"
      (NotesService.get_note_script "x-coredata://n1") = false
  ∧ PyStr.contains NotesService.FOLDER
      (NotesService.append_to_note_script "x-coredata://n1" "Tuesday") = false
  ∧ PyStr.contains "folder"
      (NotesService.append_to_note_script "x-coredata://n1" "Tuesday") = false
  ∧ PyStr.contains ("note id " +:+ quoted NotesService.FOLDER)
      (NotesService.get_note_script NotesService.FOLDER) = true.
Proof.
  split; [apply create_script_names_folder|].
  split; [apply list_script_names_folder|].
  repeat split; vm_compute; reflexivity.
Qed.

(** ** The create script *)

Lemma create_script_literals (title body : string) :
  PyStr.contains
    ("{name:" +:+ quoted (NotesService.escape title) +:+ ", body:"
       +:+ quoted (PyStr.replace (String nl "") "<br>" (NotesService.escape body))
       +:+ "}")
    (NotesService.create_note_script title body) = true.
Proof.
  apply contains_spec.
  exists (text [""; "        tell application " +:+ quoted "Notes";
                "            tell folder " +:+ quoted NotesService.FOLDER;
                "                set newNote to make new note with properties "]).
  exists (text [""; "                return id of newNote";
                "            end tell"; "        end tell"; "        "]).
  unfold NotesService.create_note_script, NotesService.escape_body.
  str_norm. reflexivity.
Qed.

(** C9. create("Day 1", "Slept well.") builds a script containing
    body:"Slept well."; create of the title [He said "hi"] and the body
    line1, newline, line2 builds a script containing the name literal with
    both quotes escaped and the body literal line1<br>line2.  In general
    the name literal is the title after the two escaping steps, and the
    body literal is the body after the two steps and the newline step; a
    newline in a title stays a newline. *)
Theorem create_script_examples :
  PyStr.contains ("body:" +:+ quoted "Slept well.")
    (NotesService.create_note_script "Day 1" "Slept well.") = true
  ∧ PyStr.contains
      ("name:" +:+ quoted ("He said \" +:+ String dq ("hi\" +:+ String dq "")))
      (NotesService.create_note_script
         ("He said " +:+ quoted "hi") ("line1" +:+ String nl "line2")) = true
  ∧ PyStr.contains ("body:" +:+ quoted "line1<br>line2")
      (NotesService.create_note_script
         ("He said " +:+ quoted "hi") ("line1" +:+ String nl "line2")) = true
  ∧ (∀ title body,
       PyStr.contains
         ("{name:" +:+ quoted (NotesService.escape title) +:+ ", body:"
            +:+ quoted (PyStr.replace (String nl "") "<br>" (NotesService.escape body))
            +:+ "}")
         (NotesService.create_note_script title body) = true)
  ∧ NotesService.escape ("line1" +:+ String nl "line2")
    = "line1" +:+ String nl "line2".
Proof.
  split; [vm_compute; reflexivity|].
  split; [vm_compute; reflexivity|].
  split; [vm_compute; reflexivity|].
  split; [apply create_script_literals | vm_compute; reflexivity].
Qed.
(** ** Decoding one note *)

(** C4. When the interpreter exits with status 0 and its trimmed output
    splits on the field delimiter into fewer than 5 parts, fetch-one raises
    the decode failure and returns no record; with at least 5 parts it
    returns the record whose five keys hold the first five parts by
    position. *)
Theorem get_note_decoding (run : osascript) (note_id : string) (parts : list string) :
  returncode (run (NotesService.get_note_script note_id)) = 0%Z →
  PyStr.split NotesService.FIELD_SEP
    (PyStr.strip (stdout (run (NotesService.get_note_script note_id)))) = parts →
  (length parts < 5 →
     NotesService.get_note run note_id = Raise "Invalid response from AppleScript")
  ∧ (5 ≤ length parts →
       ∃ note, NotesService.get_note run note_id = Ok note
         ∧ note !! "id" = parts !! 0
         ∧ note !! "name" = parts !! 1
         ∧ note !! "body" = parts !! 2
         ∧ note !! "creation_date" = parts !! 3
         ∧ note !! "modification_date" = parts !! 4
         ∧ dom note = {[ "id"; "name"; "body"; "creation_date"; "modification_date" ]}).
Proof.
  intros Hrc Hparts. unfold NotesService.get_note.
  rewrite Hrc, Hparts. rewrite bool_decide_false by (intros H; by apply H).
  split; intros Hlen.
  - by rewrite bool_decide_true.
  - rewrite bool_decide_false by lia.
    destruct parts as [|p0 [|p1 [|p2 [|p3 [|p4 rest]]]]]; simpl in Hlen; try lia.
    eexists. split; [reflexivity|]. cbn [lookup_total list_lookup_total lookup list_lookup].
    split_and!; by simplify_map_eq.
Qed.

Lemma get_note_decoding_witness :
  NotesService.get_note (prints ("x-coredata://n1|~|Day 1" +:+ String nl "")) "x-coredata://n1"
  = Raise "Invalid response from AppleScript"
  ∧ ∃ note,
      NotesService.get_note
        (prints ("x-coredata://n1|~|Day 1|~|Slept well.|~|Monday|~|Tuesday" +:+ String nl ""))
        "x-coredata://n1" = Ok note
      ∧ note !! "id" = Some "x-coredata://n1"
      ∧ note !! "body" = Some "Slept well."
      ∧ note !! "modification_date" = Some "Tuesday".
Proof.
  split.
  - eapply (get_note_decoding
              (prints ("x-coredata://n1|~|Day 1" +:+ String nl "")) "x-coredata://n1");
      [reflexivity | reflexivity | vm_compute; lia].
  - destruct (get_note_decoding
                (prints ("x-coredata://n1|~|Day 1|~|Slept well.|~|Monday|~|Tuesday"
                           +:+ String nl ""))
                "x-coredata://n1" _ eq_refl eq_refl) as [_ H].
    destruct H as (note & Hnote & Hid & _ & Hbody & _ & Hmod & _); [vm_compute; lia|].
    exists note. repeat split; assumption.
Defined.

(** C10. When the trimmed output splits into more than 5 parts, as it does
    when the body itself contains the field delimiter, fetch-one succeeds:
    the record is built from the first five parts by position and the
    parts after the fifth are dropped. *)
Theorem get_note_drops_extra_parts
    (run : osascript) (note_id p0 p1 p2 p3 p4 : string) (extra : list string) :
  returncode (run (NotesService.get_note_script note_id)) = 0%Z →
  PyStr.split NotesService.FIELD_SEP
    (PyStr.strip (stdout (run (NotesService.get_note_script note_id))))
  = p0 :: p1 :: p2 :: p3 :: p4 :: extra →
  extra ≠ [] →
  NotesService.get_note run note_id
  = Ok {[ "id" := p0; "name" := p1; "body" := p2;
          "creation_date" := p3; "modification_date" := p4 ]}.
Proof.
  intros Hrc Hparts _. unfold NotesService.get_note.
  rewrite Hrc, Hparts. rewrite bool_decide_false by (intros H; by apply H).
  rewrite bool_decide_false by (simpl; lia). reflexivity.
Qed.

Lemma get_note_drops_extra_parts_witness :
  NotesService.get_note
    (prints ("x-coredata://n1|~|Day 1|~|left|~|right|~|Monday|~|Tuesday" +:+ String nl ""))
    "x-coredata://n1"
  = Ok {[ "id" := "x-coredata://n1"; "name" := "Day 1"; "body" := "left";
          "creation_date" := "right"; "modification_date" := "Monday" ]}.
Proof.
  apply (get_note_drops_extra_parts _ _ _ _ _ _ _ ["Tuesday"]);
    [reflexivity | reflexivity | discriminate].
Defined.
(** ** Decoding the list *)

Lemma lstrip_all_space (s : string) : PyStr.lstrip s = "" ↔ all_space s = true.
Proof.
  induction s as [|c s IH]; [done|]. simpl.
  destruct (PyStr.isspace c); [done|]. split; discriminate.
Qed.

Lemma rstrip_empty (s : string) : s = "" → PyStr.rstrip s = "".
Proof. by intros ->. Qed.

Lemma rstrip_not_empty (c : ascii) (s : string) :
  PyStr.isspace c = false → PyStr.rstrip (String c s) ≠ "".
Proof. intros Hc. simpl. rewrite Hc. by destruct (PyStr.rstrip s). Qed.

Lemma lstrip_head (s : string) :
  PyStr.lstrip s = "" ∨ ∃ c r, PyStr.lstrip s = String c r ∧ PyStr.isspace c = false.
Proof.
  induction s as [|c s IH]; [by left|]. simpl.
  destruct (PyStr.isspace c) eqn:Hc; [done|]. right. by exists c, s.
Qed.

(** The trimmed text is empty exactly when the text is white space only. *)
Lemma strip_all_space (s : string) : PyStr.strip s = "" ↔ all_space s = true.
Proof.
  unfold PyStr.strip. rewrite <- lstrip_all_space.
  destruct (lstrip_head s) as [->|(c & r & -> & Hc)]; [done|].
  split; [|discriminate]. intros H. by apply rstrip_not_empty in H.
Qed.

(** C8. When the interpreter exits with status 0 and prints nothing but
    white space, list-all returns the empty list and raises nothing; the
    tool then reports that no notes were found, not an error. *)
Theorem empty_listing_is_empty_list
    (run : osascript) (start_date end_date : option string) :
  returncode (run (NotesService.get_notes_list_script start_date end_date)) = 0%Z →
  all_space (stdout (run (NotesService.get_notes_list_script start_date end_date))) = true →
  NotesService.get_notes_list run start_date end_date = Ok []
  ∧ Server.get_notes_list run start_date end_date
    = "No notes found in Claude Diary folder".
Proof.
  intros Hrc Hsp. apply strip_all_space in Hsp.
  assert (NotesService.get_notes_list run start_date end_date = Ok []) as H.
  { unfold NotesService.get_notes_list. rewrite Hrc, Hsp.
    by rewrite bool_decide_false by (intros H; by apply H). }
  split; [done|]. unfold Server.get_notes_list. by rewrite H.
Qed.

Lemma empty_listing_is_empty_list_witness :
  NotesService.get_notes_list (prints (" " +:+ String nl "")) None None = Ok []
  ∧ Server.get_notes_list (prints (" " +:+ String nl "")) None None
    = "No notes found in Claude Diary folder".
Proof.
  apply (empty_listing_is_empty_list (prints (" " +:+ String nl "")) None None);
    reflexivity.
Defined.

(** C6. The two date arguments enter neither the script nor the decoding:
    with the same interpreter, any two choices of them (given or not) yield
    the same script, the same list from the service and the same text from
    the tool. *)
Theorem date_arguments_are_inert
    (run : osascript) (start_date end_date start_date' end_date' : option string) :
  NotesService.get_notes_list_script start_date end_date
  = NotesService.get_notes_list_script start_date' end_date'
  ∧ NotesService.get_notes_list run start_date end_date
    = NotesService.get_notes_list run start_date' end_date'
  ∧ Server.get_notes_list run start_date end_date
    = Server.get_notes_list run start_date' end_date'.
Proof. done. Qed.

(** One turn of the decoder's loop appends the record of the segment when
    the segment is kept, and nothing otherwise. *)
Lemma decode_step_kept (notes : list (gmap string string)) (segment : string) :
  NotesService.decode_step notes segment
  = if ListDecoder.kept segment then notes ++ [ListDecoder.summary segment] else notes.
Proof.
  unfold NotesService.decode_step, ListDecoder.kept, ListDecoder.summary,
    ListDecoder.fields.
  destruct (decide (segment = "")) as [->|Hne].
  - by rewrite bool_decide_true.
  - rewrite bool_decide_false by done. rewrite (bool_decide_true (_ ≠ _)) by done.
    by case_bool_decide.
Qed.

(** The loop appends, in order, the record of every segment that is kept. *)
Lemma foldl_decode_step (notes : list (gmap string string)) (segments : list string) :
  foldl NotesService.decode_step notes segments
  = notes ++ (ListDecoder.summary <$>
                filter (λ segment, ListDecoder.kept segment = true) segments).
Proof.
  revert notes. induction segments as [|seg segments IH]; intros notes.
  - by rewrite app_nil_r.
  - cbn [foldl]. rewrite IH, decode_step_kept, filter_cons.
    destruct (ListDecoder.kept seg).
    + rewrite decide_True by done. cbn [fmap list_fmap]. by rewrite <- app_assoc.
    + by rewrite decide_False by done.
Qed.

(** C7. On a non-empty trimmed output, list-all returns the list the
    specification describes and never fails: the output is split on the
    record delimiter, the empty segments and the segments with fewer than 4
    fields are left out, and every other segment gives, in order, the
    record of its first four fields by position. *)
Theorem list_decoding (run : osascript) (start_date end_date : option string) :
  returncode (run (NotesService.get_notes_list_script start_date end_date)) = 0%Z →
  PyStr.strip (stdout (run (NotesService.get_notes_list_script start_date end_date))) ≠ "" →
  NotesService.get_notes_list run start_date end_date
  = Ok (ListDecoder.decode
          (PyStr.strip
             (stdout (run (NotesService.get_notes_list_script start_date end_date)))))
  ∧ ∀ segment,
      (ListDecoder.kept segment = true ↔
         segment ≠ "" ∧ 4 ≤ length (PyStr.split "|~|" segment))
      ∧ (ListDecoder.kept segment = true →
           ListDecoder.summary segment !! "id" = PyStr.split "|~|" segment !! 0
           ∧ ListDecoder.summary segment !! "name" = PyStr.split "|~|" segment !! 1
           ∧ ListDecoder.summary segment !! "creation_date"
             = PyStr.split "|~|" segment !! 2
           ∧ ListDecoder.summary segment !! "modification_date"
             = PyStr.split "|~|" segment !! 3
           ∧ dom (ListDecoder.summary segment)
             = {[ "id"; "name"; "creation_date"; "modification_date" ]}).
Proof.
  intros Hrc Hout. split.
  - unfold NotesService.get_notes_list. rewrite Hrc.
    rewrite bool_decide_false by (intros H; by apply H).
    rewrite bool_decide_false by done.
    by rewrite foldl_decode_step.
  - intros segment. unfold ListDecoder.kept, ListDecoder.summary, ListDecoder.fields.
    change NotesService.FIELD_SEP with "|~|".
    split.
    + rewrite andb_true_iff, !bool_decide_eq_true. done.
    + rewrite andb_true_iff, !bool_decide_eq_true. intros [_ Hlen].
      destruct (PyStr.split "|~|" segment) as [|p0 [|p1 [|p2 [|p3 rest]]]];
        simpl in Hlen; try lia.
      cbn [lookup_total list_lookup_total lookup list_lookup].
      split_and!; by simplify_map_eq.
Qed.

Lemma list_decoding_witness :
  ∃ one,
    NotesService.get_notes_list
      (prints ("a|~|Day 1|~|Monday|~|Tuesday||||broken|~|segment||" +:+ String nl ""))
      None None = Ok [one]
    ∧ one !! "id" = Some "a"
    ∧ one !! "name" = Some "Day 1"
    ∧ one !! "creation_date" = Some "Monday"
    ∧ one !! "modification_date" = Some "Tuesday".
Proof.
  destruct (list_decoding
              (prints ("a|~|Day 1|~|Monday|~|Tuesday||||broken|~|segment||"
                         +:+ String nl "")) None None eq_refl) as [H Hseg].
  - discriminate.
  - destruct (Hseg "a|~|Day 1|~|Monday|~|Tuesday") as [_ Hone].
    destruct Hone as (Hid & Hname & Hc & Hm & _); [reflexivity|].
    exists (ListDecoder.summary "a|~|Day 1|~|Monday|~|Tuesday").
    split; [exact H|]. split_and!; assumption.
Defined.
(** ** The tool's view of the list *)

(** The loop of the tool appends the lines of every entry, in order. *)
Lemma foldl_entries (output : list string) (numbered : list (nat * gmap string string)) :
  foldl (λ output '(i, note), output ++ Server.entry i note) output numbered
  = output ++ concat ((λ '(i, note), Server.entry i note) <$> numbered).
Proof.
  revert output. induction numbered as [|[i note] numbered IH]; intros output.
  - by rewrite app_nil_r.
  - cbn [foldl fmap list_fmap concat]. by rewrite IH, <- app_assoc.
Qed.

Lemma format_notes_entries (notes : list (gmap string string)) :
  Server.format_notes notes
  = PyStr.join (String nl "")
      (("Found " +:+ pretty (length notes) +:+ " note(s) in Claude Diary:"
          +:+ String nl "")
       :: concat ((λ '(i, note), Server.entry i note) <$> Server.enumerate1 notes)).
Proof. unfold Server.format_notes. by rewrite foldl_entries. Qed.

(** With status 0 the service returns a list, whatever the output. *)
Lemma get_notes_list_ok (run : osascript) (start_date end_date : option string) :
  returncode (run (NotesService.get_notes_list_script start_date end_date)) = 0%Z →
  ∃ notes, NotesService.get_notes_list run start_date end_date = Ok notes.
Proof.
  intros Hrc. unfold NotesService.get_notes_list. rewrite Hrc.
  rewrite bool_decide_false by (intros H; by apply H).
  case_bool_decide; eauto.
Qed.

(** 75 records in the folder: the tool's text is the text for the first 50. *)
Example seventy_five_records :
  Server.get_notes_list (prints (sample_output 75)) None None
  = Server.get_notes_list (prints (sample_output 50)) None None.
Proof. vm_compute. reflexivity. Qed.
(** * Further properties of the code *)

(** ** The escaper *)

Lemma escape_eq_iff (s t : string) :
  NotesService.escape s = NotesService.escape t ↔ s = t.
Proof.
  split; [|by intros ->]. intros H.
  apply (f_equal AppleScript.literal_value) in H.
  rewrite !literal_value_escape in H. by injection H.
Qed.

(** X1. The escaper is one-to-one: two texts are escaped to the same text
    only when they are the same text, so two different note ids or titles
    never give the same literal. *)
Theorem escape_injective (s t : string) :
  NotesService.escape s = NotesService.escape t ↔ s = t.
Proof. apply escape_eq_iff. Qed.

Lemma break_escape_char (c : ascii) :
  smap break_char (escape_char c) = smap escape_char (break_char c).
Proof.
  unfold escape_char at 1, break_char at 2.
  destruct (Ascii.eqb_spec c bs) as [->|Hbs]; [done|].
  destruct (Ascii.eqb_spec c dq) as [->|Hdq]; [done|].
  destruct (Ascii.eqb_spec c nl) as [->|Hnl]; [done|].
  cbn [smap]. unfold escape_char, break_char.
  apply Ascii.eqb_neq in Hbs, Hdq, Hnl. by rewrite Hbs, Hdq, Hnl.
Qed.

(** Escaping a body is escaping the body with its newlines already turned
    into break markers. *)
Lemma escape_body_escape (s : string) :
  NotesService.escape_body s
  = NotesService.escape (PyStr.replace (String nl "") "<br>" s).
Proof.
  rewrite escape_body_smap, escape_smap, break_smap, smap_smap.
  apply smap_ext, break_escape_char.
Qed.

(** X2. For bodies the escaper is one-to-one only up to the newline step:
    two bodies give the same literal exactly when they agree once their
    newlines are turned into break markers, so a newline and the text of
    the marker cannot be told apart afterwards. *)
Theorem escape_body_same_literal (s t : string) :
  (NotesService.escape_body s = NotesService.escape_body t
   ↔ PyStr.replace (String nl "") "<br>" s = PyStr.replace (String nl "") "<br>" t)
  ∧ NotesService.escape_body ("a" +:+ String nl "b")
    = NotesService.escape_body "a<br>b".
Proof.
  split; [|reflexivity].
  rewrite !escape_body_escape. apply escape_eq_iff.
Qed.

Lemma escape_char_length (c : ascii) :
  String.length (escape_char c)
  = S (if Ascii.eqb c bs || Ascii.eqb c dq then 1 else 0).
Proof.
  unfold escape_char.
  destruct (Ascii.eqb c bs); [done|]. by destruct (Ascii.eqb c dq).
Qed.

Lemma escape_length (s : string) :
  String.length (NotesService.escape s) = String.length s + count_special s.
Proof.
  rewrite escape_smap. induction s as [|c s IH]; [done|].
  cbn [smap count_special String.length].
  rewrite sapp_length, escape_char_length, IH. lia.
Qed.

Lemma count_special_bound (s : string) : count_special s ≤ String.length s.
Proof.
  induction s as [|c s IH]; [done|]. cbn [count_special String.length].
  destruct (Ascii.eqb c bs || Ascii.eqb c dq); lia.
Qed.

(** X3. Escaping lengthens a text by one character for each backslash and
    each quote in it, and by nothing else: the result is never shorter than
    the text and never more than twice as long. *)
Theorem escape_grows_by_specials (s : string) :
  String.length (NotesService.escape s) = String.length s + count_special s
  ∧ String.length s ≤ String.length (NotesService.escape s)
  ∧ String.length (NotesService.escape s) ≤ 2 * String.length s.
Proof.
  pose proof (escape_length s). pose proof (count_special_bound s).
  split_and!; lia.
Qed.

Lemma escape_plain (s : string) : count_special s = 0 → NotesService.escape s = s.
Proof.
  rewrite escape_smap. induction s as [|c s IH]; [done|].
  cbn [count_special smap]. unfold escape_char at 1.
  destruct (Ascii.eqb c bs); [done|]. destruct (Ascii.eqb c dq); [done|].
  cbn [orb]. intros H. rewrite IH by lia. reflexivity.
Qed.

(** X4. The escaper leaves a text as it is exactly when the text has no
    backslash and no quote. *)
Theorem escape_changes_only_specials (s : string) :
  NotesService.escape s = s ↔ count_special s = 0.
Proof.
  split; [|apply escape_plain].
  intros H. pose proof (escape_length s) as Hlen. rewrite H in Hlen. lia.
Qed.

Lemma has_char_app (c : ascii) (s t : string) :
  has_char c (s +:+ t) = has_char c s || has_char c t.
Proof.
  induction s as [|x s IH]; [done|].
  rewrite sapp_cons. cbn [has_char]. by rewrite IH, orb_assoc.
Qed.

Lemma escape_body_char_no_newline (c : ascii) :
  has_char nl (smap break_char (escape_char c)) = false.
Proof.
  unfold escape_char.
  destruct (Ascii.eqb_spec c bs) as [->|Hbs]; [done|].
  destruct (Ascii.eqb_spec c dq) as [->|Hdq]; [done|].
  cbn [smap]. unfold break_char.
  destruct (Ascii.eqb_spec c nl) as [->|Hnl]; [done|].
  apply Ascii.eqb_neq in Hnl. rewrite sapp_nil_r. cbn [has_char].
  by rewrite Hnl.
Qed.

(** X5. An escaped body holds no newline, whatever the body: the body
    literal of the create and of the append script stays on one line. *)
Theorem escape_body_is_one_line (s : string) :
  has_char nl (NotesService.escape_body s) = false.
Proof.
  rewrite escape_body_smap. induction s as [|c s IH]; [done|].
  cbn [smap]. by rewrite has_char_app, escape_body_char_no_newline, IH.
Qed.
(** ** Reading the create and the fetch-one scripts back *)

Lemma quoted_app (s r : string) : quoted s +:+ r = String dq (s +:+ String dq r).
Proof. unfold quoted. by rewrite sapp_cons, sapp_assoc. Qed.

(** Proves that a template is its fixed parts around its literals. *)
Ltac str_eq :=
  cbv [text PyStr.join]; rewrite ?sapp_assoc, ?quoted_app; reflexivity.

Lemma create_script_shape (title body : string) :
  NotesService.create_note_script title body
  = AppleScript.create_open +:+ (NotesService.escape title +:+ String dq
      (AppleScript.create_mid +:+ (NotesService.escape_body body +:+
         String dq AppleScript.create_close))).
Proof.
  unfold NotesService.create_note_script, AppleScript.create_open,
    AppleScript.create_mid, AppleScript.create_close, NotesService.FOLDER.
  str_eq.
Qed.

Lemma fetch_script_shape (note_id : string) :
  NotesService.get_note_script note_id
  = AppleScript.fetch_open +:+ (NotesService.escape note_id +:+
      String dq AppleScript.fetch_close).
Proof.
  unfold NotesService.get_note_script, AppleScript.fetch_open,
    AppleScript.fetch_close, NotesService.FIELD_SEP.
  str_eq.
Qed.

(** X6. Whatever title and body the caller passes, the create script is
    read as the template with two literals in it: the name literal has the
    title as its value and the body literal has the body, with newlines as
    break markers, as its value.  No title or body closes a literal early
    or adds a statement. *)
Theorem create_script_read_back (title body : string) :
  AppleScript.parse_create (NotesService.create_note_script title body)
  = Some (title, PyStr.replace (String nl "") "<br>" body).
Proof.
  rewrite create_script_shape. unfold AppleScript.parse_create.
  rewrite expect_app. cbn [mbind option_bind].
  rewrite read_literal_escape. cbn [mbind option_bind].
  rewrite expect_app. cbn [mbind option_bind].
  rewrite read_literal_escape_body. cbn [mbind option_bind].
  rewrite <- (sapp_nil_r AppleScript.create_close) at 2.
  rewrite expect_app. cbn [mbind option_bind]. done.
Qed.

(** X7. Whatever note id the caller passes, the fetch-one script is read as
    the template addressing exactly that note id. *)
Theorem fetch_script_read_back (note_id : string) :
  AppleScript.parse_fetch (NotesService.get_note_script note_id) = Some note_id.
Proof.
  rewrite fetch_script_shape. unfold AppleScript.parse_fetch.
  rewrite expect_app. cbn [mbind option_bind].
  rewrite read_literal_escape. cbn [mbind option_bind].
  rewrite <- (sapp_nil_r AppleScript.fetch_close) at 2.
  rewrite expect_app. cbn [mbind option_bind]. done.
Qed.

(** ** Trimming *)

Lemma lstrip_length (s : string) : String.length (PyStr.lstrip s) ≤ String.length s.
Proof.
  induction s as [|c s IH]; [done|]. cbn [PyStr.lstrip].
  destruct (PyStr.isspace c); cbn [String.length]; lia.
Qed.

Lemma rstrip_cons (c : ascii) (s : string) :
  PyStr.rstrip (String c s)
  = match PyStr.rstrip s with
    | EmptyString => if PyStr.isspace c then EmptyString else String c EmptyString
    | r => String c r
    end.
Proof. reflexivity. Qed.

Lemma rstrip_idemp (s : string) : PyStr.rstrip (PyStr.rstrip s) = PyStr.rstrip s.
Proof.
  induction s as [|c s IH]; [done|]. rewrite rstrip_cons.
  destruct (PyStr.rstrip s) as [|d r] eqn:Hr.
  - destruct (PyStr.isspace c) eqn:Hc; [done|]. rewrite rstrip_cons. cbn. by rewrite Hc.
  - by rewrite rstrip_cons, IH.
Qed.

(** Trimming on the right keeps the first character of a text that does
    not start with white space. *)
Lemma rstrip_head (c : ascii) (s : string) :
  PyStr.isspace c = false → ∃ r, PyStr.rstrip (String c s) = String c r.
Proof.
  intros Hc. rewrite rstrip_cons, Hc.
  destruct (PyStr.rstrip s); eauto.
Qed.

Lemma strip_trimmed (s : string) :
  PyStr.lstrip (PyStr.strip s) = PyStr.strip s
  ∧ PyStr.rstrip (PyStr.strip s) = PyStr.strip s.
Proof.
  unfold PyStr.strip. split; [|apply rstrip_idemp].
  destruct (lstrip_head s) as [->|(c & r & -> & Hc)]; [done|].
  destruct (rstrip_head c r Hc) as [r' ->]. cbn [PyStr.lstrip]. by rewrite Hc.
Qed.

(** X9. The note id that create returns is trimmed: it has no white space
    at its start or at its end (the newline that ends the interpreter's
    output is gone), and trimming it again changes nothing. *)
Theorem create_note_returns_trimmed_id
    (run : osascript) (title body note_id : string) :
  NotesService.create_note run title body = Ok note_id →
  PyStr.lstrip note_id = note_id
  ∧ PyStr.rstrip note_id = note_id
  ∧ PyStr.strip note_id = note_id.
Proof.
  unfold NotesService.create_note. case_bool_decide; [done|].
  intros [= <-]. destruct (strip_trimmed (stdout (run
    (NotesService.create_note_script title body)))) as [Hl Hr].
  split_and!; [done..|]. unfold PyStr.strip at 1. by rewrite Hl, Hr.
Qed.

Lemma create_note_returns_trimmed_id_witness :
  PyStr.lstrip "x-coredata://n1" = "x-coredata://n1"
  ∧ PyStr.rstrip "x-coredata://n1" = "x-coredata://n1"
  ∧ PyStr.strip "x-coredata://n1" = "x-coredata://n1".
Proof.
  apply (create_note_returns_trimmed_id
           (prints ("  x-coredata://n1 " +:+ String nl "")) "Day 1" "Slept well.").
  reflexivity.
Defined.

(** ** The records of the list *)

Lemma summary_dom (segment : string) :
  dom (ListDecoder.summary segment)
  = {[ "id"; "name"; "creation_date"; "modification_date" ]}.
Proof.
  unfold ListDecoder.summary. rewrite !dom_insert_L, dom_singleton_L. set_solver.
Qed.

(** Every record of the list comes from a segment that was kept. *)
Lemma get_notes_list_records
    (run : osascript) (start_date end_date : option string)
    (notes : list (gmap string string)) (note : gmap string string) :
  NotesService.get_notes_list run start_date end_date = Ok notes →
  note ∈ notes →
  ∃ segment, note = ListDecoder.summary segment ∧ ListDecoder.kept segment = true.
Proof.
  unfold NotesService.get_notes_list. case_bool_decide; [done|].
  case_bool_decide.
  - intros [= <-] Hin. by apply not_elem_of_nil in Hin.
  - intros [= <-]. rewrite foldl_decode_step, app_nil_l.
    intros (segment & -> & Hin)%list_elem_of_fmap.
    apply list_elem_of_filter in Hin as [Hkept _]. eauto.
Qed.

(** X10. Every record that list-all returns has exactly the four keys id,
    name, creation_date and modification_date, so the tool never falls back
    on its defaults ("Untitled", the empty text): each entry shows the four
    values of the record. *)
Theorem listed_records_are_complete
    (run : osascript) (start_date end_date : option string)
    (notes : list (gmap string string)) (note : gmap string string) (i : nat) :
  NotesService.get_notes_list run start_date end_date = Ok notes →
  note ∈ notes →
  dom note = {[ "id"; "name"; "creation_date"; "modification_date" ]}
  ∧ ∃ id name created modified,
      note !! "id" = Some id ∧ note !! "name" = Some name
      ∧ note !! "creation_date" = Some created
      ∧ note !! "modification_date" = Some modified
      ∧ Server.entry i note
        = [ pretty i +:+ ". " +:+ quoted name;
            "   ID: " +:+ id;
            "   Created: " +:+ created;
            "   Modified: " +:+ modified;
            "" ].
Proof.
  intros H Hin.
  destruct (get_notes_list_records _ _ _ _ _ H Hin) as (segment & -> & _).
  split; [apply summary_dom|].
  unfold Server.entry, ListDecoder.summary.
  do 4 eexists. split_and!; [by simplify_map_eq..|].
  by simplify_map_eq.
Qed.

Lemma listed_records_are_complete_witness :
  ∃ note,
    dom note = {[ "id"; "name"; "creation_date"; "modification_date" ]}
    ∧ Server.entry 1 note
      = [ "1. " +:+ quoted "Day 1"; "   ID: a"; "   Created: Monday";
          "   Modified: Tuesday"; "" ].
Proof.
  exists (ListDecoder.summary "a|~|Day 1|~|Monday|~|Tuesday").
  destruct (listed_records_are_complete
              (prints ("a|~|Day 1|~|Monday|~|Tuesday" +:+ String nl "")) None None
              [ListDecoder.summary "a|~|Day 1|~|Monday|~|Tuesday"]
              (ListDecoder.summary "a|~|Day 1|~|Monday|~|Tuesday") 1)
    as (Hdom & id & name & created & modified & Hid & Hname & Hc & Hm & Hentry).
  - reflexivity.
  - apply list_elem_of_here.
  - split; [exact Hdom|]. rewrite Hentry.
    vm_compute in Hid, Hname, Hc, Hm.
    injection Hid as <-. injection Hname as <-.
    injection Hc as <-. injection Hm as <-. reflexivity.
Defined.
(** ** What the tools answer *)

(** The record that fetch-one returns has all the keys the tool reads. *)
Lemma get_note_lines_complete (p0 p1 p2 p3 p4 : string) :
  Server.get_note_lines
    {[ "id" := p0; "name" := p1; "body" := p2;
       "creation_date" := p3; "modification_date" := p4 ]}
  = Ok [ "Note: " +:+ quoted p1; "ID: " +:+ p0; "Created: " +:+ p3;
         "Modified: " +:+ p4; ""; "Content:"; "---"; p2 ].
Proof.
  unfold Server.get_note_lines, Server.getitem. by simplify_map_eq.
Qed.

(** With status 0 the service returns what the decoder makes of the trimmed
    output, empty or not. *)
Lemma get_notes_list_decode (run : osascript) (start_date end_date : option string) :
  returncode (run (NotesService.get_notes_list_script start_date end_date)) = 0%Z →
  NotesService.get_notes_list run start_date end_date
  = Ok (ListDecoder.decode
          (PyStr.strip
             (stdout (run (NotesService.get_notes_list_script start_date end_date))))).
Proof.
  intros H0. unfold NotesService.get_notes_list. rewrite H0.
  rewrite bool_decide_false by (intros H; by apply H).
  case_bool_decide as Hout.
  - by rewrite Hout.
  - by rewrite foldl_decode_step.
Qed.

(** X14. The tool get_notes_list, in terms of what the interpreter did:
    with a status other than 0 it answers with the error stream after both
    prefixes; with status 0 it says that no notes were found when the
    decoder keeps no segment of the trimmed output, and otherwise lists the
    first 50 records.  Its answer starts with "Error getting notes: "
    exactly when the status is not 0, whatever the interpreter prints. *)
Theorem list_tool_answer (run : osascript) (start_date end_date : option string) :
  Server.get_notes_list run start_date end_date
  = (if bool_decide
          (returncode (run (NotesService.get_notes_list_script start_date end_date))
           ≠ 0%Z)
     then "Error getting notes: Failed to get notes: "
            +:+ stderr (run (NotesService.get_notes_list_script start_date end_date))
     else
       if bool_decide
            (ListDecoder.decode
               (PyStr.strip
                  (stdout (run (NotesService.get_notes_list_script start_date end_date))))
             = [])
       then "No notes found in Claude Diary folder"
       else Server.format_notes
              (take 50
                 (ListDecoder.decode
                    (PyStr.strip
                       (stdout (run (NotesService.get_notes_list_script
                                       start_date end_date)))))))
  ∧ (PyStr.startswith "Error getting notes: "
       (Server.get_notes_list run start_date end_date) = true
     ↔ returncode (run (NotesService.get_notes_list_script start_date end_date)) ≠ 0%Z).
Proof.
  destruct (decide
    (returncode (run (NotesService.get_notes_list_script start_date end_date)) = 0%Z))
    as [H0|H0].
  - rewrite bool_decide_false by (intros H; by apply H).
    unfold Server.get_notes_list. rewrite (get_notes_list_decode _ _ _ H0).
    split; [done|]. split; [|done]. intros Hpre. exfalso.
    case_bool_decide; [discriminate|].
    rewrite format_notes_entries in Hpre.
    cbn [PyStr.join] in Hpre.
    destruct (concat _); discriminate.
  - rewrite bool_decide_true by done.
    unfold Server.get_notes_list, NotesService.get_notes_list.
    rewrite bool_decide_true by done. split.
    + by rewrite <- sapp_assoc.
    + split; [done|]. intros _. apply startswith_app.
Qed.
(** ** Splitting and joining *)

Lemma join_cons (sep x : string) (l : list string) :
  PyStr.join sep (x :: l)
  = match l with [] => x | _ :: _ => x +:+ sep +:+ PyStr.join sep l end.
Proof. reflexivity. Qed.

Lemma join_cons_head (sep : string) (c : ascii) (h : string) (t : list string) :
  PyStr.join sep (String c h :: t) = String c (PyStr.join sep (h :: t)).
Proof. rewrite !join_cons. destruct t; [done|]. by rewrite sapp_cons. Qed.

Lemma sdrop_app (p r : string) : sdrop (String.length p) (p +:+ r) = r.
Proof. induction p as [|c p IH]; [by destruct r|]. by rewrite sapp_cons. Qed.

Lemma split_from_cons (sep : string) (skip : nat) (c : ascii) (s : string) :
  PyStr.split_from sep skip (String c s)
  = match skip with
    | S k => PyStr.split_from sep k s
    | O =>
        if PyStr.startswith sep (String c s)
        then let '(h, t) := PyStr.split_from sep (String.length sep - 1) s in
             (EmptyString, h :: t)
        else let '(h, t) := PyStr.split_from sep 0 s in (String c h, t)
    end.
Proof. reflexivity. Qed.

(** The segments found from any state of the scan, joined again, are the
    text that was left to scan. *)
Lemma split_from_join (sep : string) (skip : nat) (s : string) :
  sep ≠ "" →
  PyStr.join sep ((PyStr.split_from sep skip s).1 :: (PyStr.split_from sep skip s).2)
  = sdrop skip s.
Proof.
  intros Hsep. revert skip. induction s as [|c s IH]; intros skip.
  - by destruct skip.
  - rewrite split_from_cons. destruct skip as [|k]; [|apply IH].
    destruct (PyStr.startswith sep (String c s)) eqn:Hpre.
    + apply startswith_spec in Hpre as [r Hr].
      destruct sep as [|c' sep']; [done|].
      rewrite sapp_cons in Hr. injection Hr as <- ->.
      specialize (IH (String.length (String c sep') - 1)).
      destruct (PyStr.split_from _ _ _) as [h t]. cbn [fst snd] in *.
      rewrite join_cons, sapp_nil_l, IH.
      replace (String.length (String c sep') - 1) with (String.length sep')
        by (cbn [String.length]; lia).
      by rewrite sdrop_app, sapp_cons.
    + specialize (IH 0). destruct (PyStr.split_from _ _ _) as [h t].
      cbn [fst snd] in *. by rewrite join_cons_head, IH.
Qed.

Lemma join_split (sep s : string) :
  sep ≠ "" → PyStr.join sep (PyStr.split sep s) = s.
Proof.
  intros Hsep. pose proof (split_from_join sep 0 s Hsep) as H.
  unfold PyStr.split. destruct sep; [done|].
  by destruct (PyStr.split_from _ _ _).
Qed.

(** X15. Splitting loses no character: the parts into which the decoders
    split a text on the field delimiter or on the record delimiter, joined
    again by that delimiter, are the text; and there is always at least
    one part. *)
Theorem split_then_join (s : string) :
  PyStr.join "|~|" (PyStr.split "|~|" s) = s
  ∧ PyStr.join "||" (PyStr.split "||" s) = s
  ∧ 1 ≤ length (PyStr.split "|~|" s)
  ∧ 1 ≤ length (PyStr.split "||" s).
Proof.
  split_and!; try (by apply join_split).
  - unfold PyStr.split. destruct (PyStr.split_from _ _ _). cbn [length]. lia.
  - unfold PyStr.split. destruct (PyStr.split_from _ _ _). cbn [length]. lia.
Qed.

(** ** Splitting what was joined *)

Lemma split_from_no_match (sep a tail : string) :
  no_match sep a tail = true →
  PyStr.split_from sep 0 (a +:+ tail)
  = (a +:+ (PyStr.split_from sep 0 tail).1, (PyStr.split_from sep 0 tail).2).
Proof.
  induction a as [|c a IH]; intros H.
  - rewrite !sapp_nil_l. by destruct (PyStr.split_from _ _ _).
  - cbn [no_match] in H. apply andb_true_iff in H as [Hhere Hrest].
    apply negb_true_iff in Hhere. rewrite sapp_cons in Hhere.
    rewrite !sapp_cons, split_from_cons, Hhere, (IH Hrest). done.
Qed.

Lemma split_from_skip (sep p rest : string) :
  PyStr.split_from sep (String.length p) (p +:+ rest) = PyStr.split_from sep 0 rest.
Proof.
  induction p as [|c p IH]; [done|].
  rewrite sapp_cons. cbn [String.length]. by rewrite split_from_cons.
Qed.

Lemma split_from_at_sep (c : ascii) (sep' rest : string) :
  PyStr.split_from (String c sep') 0 (String c sep' +:+ rest)
  = (EmptyString,
     (PyStr.split_from (String c sep') 0 rest).1
     :: (PyStr.split_from (String c sep') 0 rest).2).
Proof.
  pose proof (startswith_app (String c sep') rest) as Hpre.
  rewrite sapp_cons in *. rewrite split_from_cons, Hpre.
  replace (String.length (String c sep') - 1) with (String.length sep')
    by (cbn [String.length]; lia).
  rewrite split_from_skip.
  by destruct (PyStr.split_from _ _ _).
Qed.

(** A part in which the delimiter is found nowhere, followed by the
    delimiter, is split off as it is. *)
Lemma split_app_sep (sep a rest : string) :
  sep ≠ "" →
  no_match sep a (sep +:+ rest) = true →
  PyStr.split sep (a +:+ (sep +:+ rest)) = a :: PyStr.split sep rest.
Proof.
  intros Hsep H. destruct sep as [|c sep']; [done|]. unfold PyStr.split.
  rewrite (split_from_no_match _ _ _ H), split_from_at_sep. cbn [fst snd].
  rewrite sapp_nil_r. by destruct (PyStr.split_from _ _ _).
Qed.

Lemma split_alone (sep a : string) :
  sep ≠ "" → no_match sep a "" = true → PyStr.split sep a = [a].
Proof.
  intros Hsep H. destruct sep as [|c sep']; [done|]. unfold PyStr.split.
  rewrite <- (sapp_nil_r a) at 1. rewrite (split_from_no_match _ _ _ H).
  cbn. by rewrite sapp_nil_r.
Qed.

(** Joining parts in each of which the delimiter is found nowhere, whatever
    follows, and splitting the result gives the parts back. *)
Lemma split_join (sep : string) (l : list string) :
  sep ≠ "" → l ≠ [] →
  Forall (λ x, ∀ tail, no_match sep x tail = true) l →
  PyStr.split sep (PyStr.join sep l) = l.
Proof.
  intros Hsep Hne Hall. induction Hall as [|x l Hx Hall IH]; [done|].
  rewrite join_cons. destruct l as [|y l].
  - by apply split_alone.
  - rewrite split_app_sep by done. by rewrite IH.
Qed.
(** ** Values without a vertical bar *)

Lemma no_match_cons (sep : string) (c : ascii) (a tail : string) :
  no_match sep (String c a) tail
  = negb (PyStr.startswith sep (String c (a +:+ tail))) && no_match sep a tail.
Proof. reflexivity. Qed.

Lemma no_match_app (sep a b tail : string) :
  no_match sep (a +:+ b) tail
  = no_match sep a (b +:+ tail) && no_match sep b tail.
Proof.
  induction a as [|c a IH]; [done|].
  rewrite sapp_cons, !no_match_cons, IH, sapp_assoc. by rewrite andb_assoc.
Qed.

Lemma startswith_other (c x : ascii) (sep' s : string) :
  Ascii.eqb x c = false → PyStr.startswith (String c sep') (String x s) = false.
Proof.
  intros Hx. unfold PyStr.startswith. cbn [String.prefix].
  destruct (ascii_dec c x) as [->|]; [|done]. by rewrite Ascii.eqb_refl in Hx.
Qed.

(** A delimiter that starts with a bar is found nowhere in a value without
    a bar, whatever follows the value. *)
Lemma no_match_bar_free (sep' a tail : string) :
  has_char bar a = false → no_match (String bar sep') a tail = true.
Proof.
  induction a as [|x a IH]; [done|]. cbn [has_char].
  intros [Hx Ha]%orb_false_iff.
  by rewrite no_match_cons, startswith_other, IH.
Qed.

Lemma field_ok_spec (f : string) :
  field_ok f = true
  ↔ f ≠ "" ∧ PyStr.lstrip f = f ∧ PyStr.rstrip f = f ∧ has_char bar f = false.
Proof.
  unfold field_ok.
  rewrite !andb_true_iff, !bool_decide_eq_true, negb_true_iff. tauto.
Qed.

(** The field delimiter, followed by a value that is not empty and has no
    bar: the record delimiter is found at none of its three positions. *)
Lemma no_match_field_sep (f tail : string) :
  f ≠ "" → has_char bar f = false →
  no_match "||" "|~|" (f +:+ tail) = true.
Proof.
  intros Hne Hbar. destruct f as [|x f]; [done|].
  cbn [has_char] in Hbar. apply orb_false_iff in Hbar as [Hx _].
  rewrite sapp_cons.
  change "|~|" with (String bar (String "~" (String bar ""))).
  rewrite !no_match_cons, !sapp_cons, sapp_nil_l.
  assert (PyStr.startswith "||" (String bar (String x (f +:+ tail))) = false) as ->.
  { unfold PyStr.startswith. cbn [String.prefix].
    destruct (ascii_dec "|" bar) as [_|]; [|done].
    destruct (ascii_dec "|" x) as [<-|]; [|done]. by rewrite Ascii.eqb_refl in Hx. }
  reflexivity.
Qed.

(** The record delimiter is found nowhere in the text of a listed note
    whose name and dates are not empty and whose four values have no bar. *)
Lemma no_match_list_record (note : string * string * string * string) (tail : string) :
  note_ok note = true →
  no_match "||" (AppleScript.list_record note) tail = true.
Proof.
  destruct note as [[[id name] created] modified]. unfold note_ok.
  rewrite !andb_true_iff, !field_ok_spec.
  intros [[[(_ & _ & _ & Hi) (Hn & _ & _ & Hn')] (Hc & _ & _ & Hc')] (Hm & _ & _ & Hm')].
  unfold AppleScript.list_record. cbv [PyStr.join].
  rewrite !no_match_app, !sapp_assoc.
  rewrite !no_match_field_sep by done.
  by rewrite !no_match_bar_free by done.
Qed.

(** The four values of a listed note are what the field delimiter splits
    its text into. *)
Lemma split_list_record (id name created modified : string) :
  has_char bar id = false → has_char bar name = false →
  has_char bar created = false → has_char bar modified = false →
  PyStr.split "|~|" (AppleScript.list_record (id, name, created, modified))
  = [id; name; created; modified].
Proof.
  intros Hi Hn Hc Hm. unfold AppleScript.list_record.
  apply split_join; [done..|].
  repeat constructor; intros tail; by apply no_match_bar_free.
Qed.

Lemma list_record_not_empty (note : string * string * string * string) :
  AppleScript.list_record note ≠ "".
Proof.
  destruct note as [[[id name] created] modified].
  unfold AppleScript.list_record. cbv [PyStr.join].
  destruct id; [done|]. by rewrite sapp_cons.
Qed.

Lemma list_record_kept (note : string * string * string * string) :
  note_ok note = true →
  ListDecoder.kept (AppleScript.list_record note) = true
  ∧ ListDecoder.summary (AppleScript.list_record note) = summary_of note.
Proof.
  intros Hok. pose proof (list_record_not_empty note) as Hne.
  destruct note as [[[id name] created] modified]. unfold note_ok in Hok.
  rewrite !andb_true_iff, !field_ok_spec in Hok.
  destruct Hok as [[[(_ & _ & _ & Hi) (_ & _ & _ & Hn)] (_ & _ & _ & Hc)] (_ & _ & _ & Hm)].
  unfold ListDecoder.kept, ListDecoder.summary, ListDecoder.fields.
  change NotesService.FIELD_SEP with "|~|".
  rewrite split_list_record by done. split; [|done].
  rewrite bool_decide_true by done. by rewrite bool_decide_true by (cbn; lia).
Qed.
(** ** Trimming what the interpreter prints *)

Lemma rstrip_all_space (w : string) : all_space w = true → PyStr.rstrip w = "".
Proof.
  induction w as [|c w IH]; [done|]. cbn [all_space].
  intros [Hc Hw]%andb_true_iff. by rewrite rstrip_cons, IH, Hc.
Qed.

Lemma rstrip_app_space (s w : string) :
  all_space w = true → PyStr.rstrip (s +:+ w) = PyStr.rstrip s.
Proof.
  intros Hw. induction s as [|c s IH]; [by apply rstrip_all_space|].
  by rewrite sapp_cons, !rstrip_cons, IH.
Qed.

Lemma sapp_not_empty (x y : string) : y ≠ "" → x +:+ y ≠ "".
Proof. intros Hy. destruct x; [done|]. by rewrite sapp_cons. Qed.

Lemma rstrip_app_keep (x y : string) :
  PyStr.rstrip y ≠ "" → PyStr.rstrip (x +:+ y) = x +:+ PyStr.rstrip y.
Proof.
  intros Hy. induction x as [|c x IH]; [done|].
  rewrite !sapp_cons, rstrip_cons, IH.
  pose proof (sapp_not_empty x _ Hy) as Hne.
  by destruct (x +:+ PyStr.rstrip y).
Qed.

Lemma starts_trimmed_app (a r : string) : starts_trimmed a → starts_trimmed (a +:+ r).
Proof. intros (c & a' & -> & Hc). exists c, (a' +:+ r). by rewrite sapp_cons. Qed.

Lemma ends_trimmed_app (x b : string) : ends_trimmed b → ends_trimmed (x +:+ b).
Proof.
  intros [Hne Hb]. split; [by apply sapp_not_empty|].
  rewrite rstrip_app_keep; rewrite Hb; done.
Qed.

Lemma field_ok_trimmed (f : string) :
  field_ok f = true → starts_trimmed f ∧ ends_trimmed f ∧ has_char bar f = false.
Proof.
  intros (Hne & Hl & Hr & Hbar)%field_ok_spec. split_and!; [|done..].
  destruct f as [|c f]; [done|]. exists c, f. split; [done|].
  cbn [PyStr.lstrip] in Hl. destruct (PyStr.isspace c); [|done].
  pose proof (lstrip_length f) as Hlen. rewrite Hl in Hlen.
  cbn [String.length] in Hlen. lia.
Qed.

(** The interpreter's output, a trimmed text and the final newline, is
    trimmed back to that text. *)
Lemma strip_output (s : string) :
  starts_trimmed s → ends_trimmed s → PyStr.strip (s +:+ String nl "") = s.
Proof.
  intros (c & r & -> & Hc) [_ Hr]. unfold PyStr.strip.
  rewrite sapp_cons. cbn [PyStr.lstrip]. rewrite Hc, <- sapp_cons.
  by rewrite rstrip_app_space.
Qed.

Lemma list_record_trimmed (note : string * string * string * string) :
  note_ok note = true →
  starts_trimmed (AppleScript.list_record note)
  ∧ ends_trimmed (AppleScript.list_record note).
Proof.
  destruct note as [[[id name] created] modified]. unfold note_ok.
  rewrite !andb_true_iff.
  intros [[[(Hs & _)%field_ok_trimmed _] _] (_ & He & _)%field_ok_trimmed].
  unfold AppleScript.list_record. cbv [PyStr.join]. split.
  - by apply starts_trimmed_app.
  - by do 6 apply ends_trimmed_app.
Qed.

Lemma list_records_trimmed (notes : list (string * string * string * string)) :
  notes ≠ [] →
  Forall (λ note, note_ok note = true) notes →
  starts_trimmed (PyStr.join "||" (AppleScript.list_record <$> notes))
  ∧ ends_trimmed (PyStr.join "||" (AppleScript.list_record <$> notes)).
Proof.
  intros Hne Hall. induction Hall as [|note notes Hok Hall IH]; [done|].
  destruct (list_record_trimmed note Hok) as [Hs He].
  cbn [fmap list_fmap]. fold (fmap (M:=list) AppleScript.list_record notes).
  rewrite join_cons. destruct notes as [|note' notes]; [done|].
  cbn [fmap list_fmap]. fold (fmap (M:=list) AppleScript.list_record notes).
  split; [by apply starts_trimmed_app|].
  do 2 apply ends_trimmed_app. by apply IH.
Qed.

Lemma decode_list_records (notes : list (string * string * string * string)) :
  Forall (λ note, note_ok note = true) notes →
  ListDecoder.summary
    <$> filter (λ segment, ListDecoder.kept segment = true)
          (AppleScript.list_record <$> notes)
  = summary_of <$> notes.
Proof.
  induction 1 as [|note notes Hok Hall IH]; [done|].
  destruct (list_record_kept note Hok) as [Hkept Hsum].
  rewrite !fmap_cons, filter_cons, decide_True by done.
  by rewrite fmap_cons, Hsum, IH.
Qed.

(** X16. Listing is the inverse of what the list-all script prints, on
    well-formed values: when every value of every note is not empty, has no
    white space at its ends and no vertical bar, the service returns one
    record for each note of the folder, in order, holding the four values
    of that note. *)
Theorem list_round_trip
    (run : osascript) (start_date end_date : option string)
    (notes : list (string * string * string * string)) :
  returncode (run (NotesService.get_notes_list_script start_date end_date)) = 0%Z →
  stdout (run (NotesService.get_notes_list_script start_date end_date))
  = AppleScript.list_output notes →
  Forall (λ note, note_ok note = true) notes →
  NotesService.get_notes_list run start_date end_date = Ok (summary_of <$> notes).
Proof.
  intros H0 Hout Hall. rewrite (get_notes_list_decode _ _ _ H0), Hout.
  f_equal. unfold AppleScript.list_output.
  destruct (decide (notes = [])) as [->|Hne]; [done|].
  destruct (list_records_trimmed notes Hne Hall) as [Hs He].
  rewrite strip_output by done. unfold ListDecoder.decode.
  change NotesService.RECORD_SEP with "||".
  rewrite split_join; [by apply decode_list_records|done| |].
  - by destruct notes.
  - apply Forall_fmap. eapply Forall_impl; [exact Hall|].
    intros note Hok tail. by apply no_match_list_record.
Qed.

Lemma list_round_trip_witness :
  NotesService.get_notes_list
    (prints (AppleScript.list_output
               [ ("x-coredata://n1", "Day 1", "Monday", "Tuesday");
                 ("x-coredata://n2", "Day 2", "Tuesday", "Wednesday 9 am") ]))
    None None
  = Ok [ {[ "id" := "x-coredata://n1"; "name" := "Day 1";
            "creation_date" := "Monday"; "modification_date" := "Tuesday" ]};
         {[ "id" := "x-coredata://n2"; "name" := "Day 2";
            "creation_date" := "Tuesday";
            "modification_date" := "Wednesday 9 am" ]} ].
Proof.
  apply (list_round_trip _ None None
           [ ("x-coredata://n1", "Day 1", "Monday", "Tuesday");
             ("x-coredata://n2", "Day 2", "Tuesday", "Wednesday 9 am") ]);
    [reflexivity | reflexivity | repeat constructor].
Defined.

(** X17. Fetching is the inverse of what the fetch-one script prints, on
    well-formed values: when none of the five values has a vertical bar,
    the id is not empty and does not start with white space, and the
    modification date is not empty and does not end with white space, the
    service returns the record holding exactly these five values. *)
Theorem fetch_round_trip
    (run : osascript) (note_id id name body created modified : string) :
  returncode (run (NotesService.get_note_script note_id)) = 0%Z →
  stdout (run (NotesService.get_note_script note_id))
  = AppleScript.fetch_output id name body created modified →
  field_ok id = true →
  has_char bar name = false → has_char bar body = false →
  has_char bar created = false →
  field_ok modified = true →
  NotesService.get_note run note_id
  = Ok {[ "id" := id; "name" := name; "body" := body;
          "creation_date" := created; "modification_date" := modified ]}.
Proof.
  intros H0 Hout (Hs & _ & Hi)%field_ok_trimmed Hn Hb Hc
    (_ & He & Hm)%field_ok_trimmed.
  unfold NotesService.get_note. rewrite H0, Hout.
  rewrite bool_decide_false by (intros H; by apply H).
  unfold AppleScript.fetch_output. rewrite strip_output.
  - change NotesService.FIELD_SEP with "|~|".
    rewrite split_join; [|done..|].
    + by rewrite bool_decide_false by (cbn; lia).
    + repeat constructor; intros tail; by apply no_match_bar_free.
  - cbv [PyStr.join]. by apply starts_trimmed_app.
  - cbv [PyStr.join]. by do 8 apply ends_trimmed_app.
Qed.

Lemma fetch_round_trip_witness :
  NotesService.get_note
    (prints (AppleScript.fetch_output
               "x-coredata://n1" "Day 1" " Slept well. " "Monday" "Tuesday"))
    "x-coredata://n1"
  = Ok {[ "id" := "x-coredata://n1"; "name" := "Day 1"; "body" := " Slept well. ";
          "creation_date" := "Monday"; "modification_date" := "Tuesday" ]}.
Proof.
  apply (fetch_round_trip _ "x-coredata://n1"); reflexivity.
Defined.
(** ** The append operation and the notes application *)











(** ** The text of the tool's list *)

Lemma summary_row_of (segment : string) :
  ListDecoder.summary segment = summary_of (row_of segment).
Proof. reflexivity. Qed.

(** The entry of a record built from four values shows these values. *)
Lemma entry_summary_of (i : nat) (row : string * string * string * string) :
  Server.entry i (summary_of row) = entry_lines i row.
Proof.
  destruct row as [[[id name] created] modified].
  unfold Server.entry, summary_of, entry_lines. by simplify_map_eq.
Qed.

(** The tool numbers the records from [first] on, in their order. *)
Lemma entries_numbered (first : nat) (rows : list (string * string * string * string)) :
  (λ '(i, note), Server.entry i note)
    <$> zip (seq first (length (summary_of <$> rows))) (summary_of <$> rows)
  = imap (λ k row, entry_lines (first + k) row) rows.
Proof.
  revert first. induction rows as [|row rows IH]; intros first; [done|].
  cbn [fmap list_fmap length seq zip zip_with imap].
  rewrite Nat.add_0_r, entry_summary_of. f_equal.
  rewrite IH. apply imap_ext. intros k row' _. cbn. by rewrite Nat.add_succ_r.
Qed.

(** The text for the records of a list of rows: the count, then the five
    lines of every row, numbered from 1, in the order of the rows. *)
Lemma format_notes_rows (rows : list (string * string * string * string)) :
  Server.format_notes (summary_of <$> rows)
  = PyStr.join (String nl "")
      (("Found " +:+ pretty (length rows) +:+ " note(s) in Claude Diary:"
          +:+ String nl "")
       :: concat (imap (λ k row, entry_lines (S k) row) rows)).
Proof.
  rewrite format_notes_entries. unfold Server.enumerate1.
  by rewrite entries_numbered, length_fmap.
Qed.

(** C5. With status 0 the service returns, in the order of the segments of
    the output, one record for each segment the decoder keeps.  When these
    are more than 50 the tool's answer is the count 50 and then the five
    lines of each of the first 50 of them, numbered from 1, in that order;
    when they are 50 or fewer, the count and the lines of them all (and the
    sentence that no notes were found when there is none). *)
Theorem list_tool_truncates (run : osascript) (start_date end_date : option string) :
  returncode (run (NotesService.get_notes_list_script start_date end_date)) = 0%Z →
  ∃ notes shown rows,
    NotesService.get_notes_list run start_date end_date = Ok notes
    ∧ rows
      = row_of <$> filter (λ segment, ListDecoder.kept segment = true)
          (PyStr.split "||"
             (PyStr.strip
                (stdout (run (NotesService.get_notes_list_script
                                start_date end_date)))))
    ∧ notes = summary_of <$> rows
    ∧ shown = take 50 notes
    ∧ Server.get_notes_list run start_date end_date
      = (if bool_decide (notes = []) then "No notes found in Claude Diary folder"
         else Server.format_notes shown)
    ∧ Server.format_notes shown
      = PyStr.join (String nl "")
          (("Found " +:+ pretty (length shown) +:+ " note(s) in Claude Diary:"
              +:+ String nl "")
           :: concat ((λ '(i, note), Server.entry i note) <$> Server.enumerate1 shown))
    ∧ Server.format_notes shown
      = PyStr.join (String nl "")
          (("Found " +:+ pretty (length (take 50 rows))
              +:+ " note(s) in Claude Diary:" +:+ String nl "")
           :: concat
                (imap (λ k '(id, name, created, modified),
                         [ pretty (S k) +:+ ". " +:+ quoted name;
                           "   ID: " +:+ id;
                           "   Created: " +:+ created;
                           "   Modified: " +:+ modified;
                           "" ])
                   (take 50 rows)))
    ∧ (50 < length notes → length shown = 50)
    ∧ (length notes ≤ 50 → shown = notes)
    ∧ (∀ i, i < 50 → shown !! i = notes !! i).
Proof.
  intros Hrc.
  pose proof (get_notes_list_decode run start_date end_date Hrc) as H.
  unfold ListDecoder.decode in H. change NotesService.RECORD_SEP with "||" in H.
  set (segments := filter _ _) in H.
  exists (summary_of <$> (row_of <$> segments)), (take 50 (summary_of <$> (row_of <$> segments))),
    (row_of <$> segments).
  split_and!.
  - rewrite H. f_equal. rewrite <- list_fmap_compose. by apply list_fmap_ext.
  - reflexivity.
  - reflexivity.
  - reflexivity.
  - unfold Server.get_notes_list. rewrite H.
    assert (ListDecoder.summary <$> segments = summary_of <$> (row_of <$> segments))
      as -> by (rewrite <- list_fmap_compose; by apply list_fmap_ext).
    done.
  - apply format_notes_entries.
  - rewrite <- fmap_take, format_notes_rows. do 3 f_equal.
  - intros Hlen. rewrite length_take. lia.
  - intros Hlen. by apply take_ge.
  - intros i Hi. by apply lookup_take_lt.
Qed.

Lemma list_tool_truncates_witness :
  (∃ notes shown,
     NotesService.get_notes_list (prints (sample_output 75)) None None = Ok notes
     ∧ length notes = 75
     ∧ shown = take 50 notes
     ∧ length shown = 50
     ∧ Server.get_notes_list (prints (sample_output 75)) None None
       = Server.format_notes shown)
  ∧ Server.get_notes_list (prints (sample_output 75)) None None
    = PyStr.join (String nl "")
        (("Found 50 note(s) in Claude Diary:" +:+ String nl "")
         :: concat
              ((λ i, [ pretty i +:+ ". " +:+ quoted ("Day " +:+ pretty i);
                       "   ID: x-coredata://n" +:+ pretty i;
                       "   Created: Monday";
                       "   Modified: Tuesday";
                       "" ])
                 <$> seq 1 50)).
Proof.
  split; [|vm_compute; reflexivity].
  destruct (list_tool_truncates (prints (sample_output 75)) None None eq_refl)
    as (notes & shown & rows & H & _ & _ & Hshown & Htool & _ & _ & Hmore & _).
  assert (length notes = 75) as Hlen.
  { assert (match NotesService.get_notes_list (prints (sample_output 75)) None None with
            | Ok l => length l
            | Raise _ => 0
            end = 75) as Hcount by (vm_compute; reflexivity).
    by rewrite H in Hcount. }
  exists notes, shown.
  split; [exact H|]. split; [exact Hlen|]. split; [exact Hshown|].
  split; [apply Hmore; lia|].
  rewrite Htool. rewrite bool_decide_false; [reflexivity|].
  intros ->. discriminate Hlen.
Defined.
(** ** What the other three tools answer *)

(** Each of these methods asks the interpreter for the process of its own
    script and for nothing else, which is what [calling] relies on. *)
Lemma methods_use_their_script (run : osascript) :
  (∀ title body,
     NotesService.create_note run title body
     = NotesService.create_note
         (λ _, run (NotesService.create_note_script title body)) title body)
  ∧ (∀ note_id content,
       NotesService.append_to_note run note_id content
       = NotesService.append_to_note
           (λ _, run (NotesService.append_to_note_script note_id content))
           note_id content)
  ∧ (∀ note_id,
       NotesService.get_note run note_id
       = NotesService.get_note
           (λ _, run (NotesService.get_note_script note_id)) note_id).
Proof. done. Qed.

(** X11. The tool create_note, in terms of the call to the interpreter:
    when the call itself raises, the answer is "Error creating note: " and
    the text of that exception; when the process exits with a status other
    than 0, it is the error stream after the tool's and the service's
    prefix; with status 0 it is the confirmation, which shows the title as
    the caller gave it and the trimmed note id.  The answer starts with
    "Error creating note: " exactly in the first two cases. *)
Theorem create_tool_answer (spawn : subprocess) (title body : string) :
  Server.create_note spawn title body
  = match spawn (NotesService.create_note_script title body) with
    | Raise e => "Error creating note: " +:+ e
    | Ok result =>
        if bool_decide (returncode result = 0%Z)
        then "Created note: " +:+ quoted title +:+ String nl "ID: "
               +:+ PyStr.strip (stdout result)
               +:+ String nl "Folder: Claude Diary (hardcoded)"
        else "Error creating note: Failed to create note: " +:+ stderr result
    end
  ∧ (PyStr.startswith "Error creating note: " (Server.create_note spawn title body)
     = true
     ↔ (∃ e, spawn (NotesService.create_note_script title body) = Raise e)
       ∨ (∃ result, spawn (NotesService.create_note_script title body) = Ok result
                    ∧ returncode result ≠ 0%Z)).
Proof.
  unfold Server.create_note, calling, NotesService.create_note.
  destruct (spawn _) as [result|e].
  - destruct (decide (returncode result = 0%Z)) as [H0|H0].
    + rewrite bool_decide_false by (intros H; by apply H).
      rewrite bool_decide_true by done. split.
      * cbv [text PyStr.join]. by rewrite ?sapp_assoc, ?quoted_app.
      * split; [discriminate|]. intros [[e [=]]|(r & [= <-] & Hr)]. done.
    + rewrite bool_decide_true by done. rewrite bool_decide_false by done. split.
      * by rewrite <- sapp_assoc.
      * split; [by right; eauto|]. intros _. apply startswith_app.
  - split; [done|]. split; [by left; eauto|]. intros _. apply startswith_app.
Qed.

(** X12. The tool append_to_note, in terms of the call to the interpreter:
    when the call itself raises, the answer is "Error appending to note: "
    and the text of that exception; when the process exits with a status
    other than 0, it is the error stream after both prefixes; with status 0
    it is the success line and the note id as the caller gave it.  The
    answer starts with "Error appending to note: " exactly in the first two
    cases. *)
Theorem append_tool_answer (spawn : subprocess) (note_id content : string) :
  Server.append_to_note spawn note_id content
  = match spawn (NotesService.append_to_note_script note_id content) with
    | Raise e => "Error appending to note: " +:+ e
    | Ok result =>
        if bool_decide (returncode result = 0%Z)
        then "Successfully appended content to note" +:+ String nl "ID: " +:+ note_id
        else "Error appending to note: Failed to append to note: " +:+ stderr result
    end
  ∧ (PyStr.startswith "Error appending to note: "
       (Server.append_to_note spawn note_id content) = true
     ↔ (∃ e, spawn (NotesService.append_to_note_script note_id content) = Raise e)
       ∨ (∃ result,
            spawn (NotesService.append_to_note_script note_id content) = Ok result
            ∧ returncode result ≠ 0%Z)).
Proof.
  unfold Server.append_to_note, calling, NotesService.append_to_note.
  destruct (spawn _) as [result|e].
  - destruct (decide (returncode result = 0%Z)) as [H0|H0].
    + rewrite bool_decide_false by (intros H; by apply H).
      rewrite bool_decide_true by done. split; [done|].
      split; [discriminate|]. intros [[e [=]]|(r & [= <-] & Hr)]. done.
    + rewrite bool_decide_true by done. rewrite bool_decide_false by done. split.
      * by rewrite <- sapp_assoc.
      * split; [by right; eauto|]. intros _. apply startswith_app.
  - split; [done|]. split; [by left; eauto|]. intros _. apply startswith_app.
Qed.

(** X13. The tool get_note, in terms of the call to the interpreter: when
    the call itself raises, the answer is "Error getting note: " and the
    text of that exception; with a status other than 0 it is the error
    stream after both prefixes; with status 0 and fewer than 5 parts it
    says that the response is invalid; otherwise it shows the second part
    as the name, the first as the id, the fourth and fifth as the dates and
    the third as the content.  No subscript of the record ever fails, and
    the answer starts with "Error getting note: " exactly in the first
    three cases. *)
Theorem get_note_tool_answer (spawn : subprocess) (note_id : string) :
  Server.get_note spawn note_id
  = match spawn (NotesService.get_note_script note_id) with
    | Raise e => "Error getting note: " +:+ e
    | Ok result =>
        if bool_decide (returncode result ≠ 0%Z)
        then "Error getting note: Failed to get note: " +:+ stderr result
        else
          match PyStr.split "|~|" (PyStr.strip (stdout result)) with
          | p0 :: p1 :: p2 :: p3 :: p4 :: _ =>
              PyStr.join (String nl "")
                [ "Note: " +:+ quoted p1; "ID: " +:+ p0; "Created: " +:+ p3;
                  "Modified: " +:+ p4; ""; "Content:"; "---"; p2 ]
          | _ => "Error getting note: Invalid response from AppleScript"
          end
    end
  ∧ (PyStr.startswith "Error getting note: " (Server.get_note spawn note_id) = true
     ↔ (∃ e, spawn (NotesService.get_note_script note_id) = Raise e)
       ∨ (∃ result, spawn (NotesService.get_note_script note_id) = Ok result
                    ∧ (returncode result ≠ 0%Z
                       ∨ length (PyStr.split "|~|" (PyStr.strip (stdout result)))
                         < 5))).
Proof.
  unfold Server.get_note, calling, NotesService.get_note.
  change NotesService.FIELD_SEP with "|~|".
  destruct (spawn _) as [result|e].
  - case_bool_decide as H0.
    + split; [by rewrite <- sapp_assoc|].
      split; [by right; eauto|]. intros _. apply startswith_app.
    + destruct (PyStr.split "|~|" _) as [|p0 [|p1 [|p2 [|p3 [|p4 rest]]]]] eqn:Hparts;
        cbn [length].
      1-5: rewrite bool_decide_true by lia;
           (split; [done|]);
           (split; [intros _; right; eexists; split; [done|]; right; rewrite Hparts; cbn; lia
                   | done]).
      rewrite bool_decide_false by lia.
      cbn [lookup_total list_lookup_total]. rewrite get_note_lines_complete.
      split; [done|]. split; [discriminate|].
      intros [[e [=]]|(r & [= <-] & [Hr|Hr])]; [done|].
      rewrite Hparts in Hr. cbn in Hr. lia.
  - split; [done|]. split; [by left; eauto|]. intros _. apply startswith_app.
Qed.
